(** * Spark UI / OpenAI integration: compaction of metric documents and the
      metric sources, embedded from [integration_Spark_UI_Open_AI.py]. *)

From Stdlib Require Import ZArith List String Ascii Bool Lia.
From Stdlib Require Import Floats.SpecFloat.
From Stdlib Require DecimalString.
Import ListNotations.
Local Open Scope string_scope.
Local Open Scope Z_scope.

(** ** Documents

    The values that [json.loads] / [response.json()] produce, and that [main]
    assembles into [return_json]: [None], booleans, unbounded integers, IEEE
    doubles, strings, lists, and dictionaries with string keys.  A dictionary
    is kept as the list of its items in insertion order. *)

Unset Elimination Schemes.
Inductive json : Type :=
| PNone
| PBool (b : bool)
| PInt (z : Z)
| PFloat (f : spec_float)
| PStr (s : string)
| PList (items : list json)
| PDict (items : list (string * json)).
Set Elimination Schemes.

Section json_induction.
Variable P : json -> Prop.
Hypothesis HNone : P PNone.
Hypothesis HBool : forall b, P (PBool b).
Hypothesis HInt : forall z, P (PInt z).
Hypothesis HFloat : forall f, P (PFloat f).
Hypothesis HStr : forall s, P (PStr s).
Hypothesis HList : forall l, Forall P l -> P (PList l).
Hypothesis HDict : forall d, Forall (fun kv => P (snd kv)) d -> P (PDict d).

Fixpoint json_ind (j : json) : P j :=
  match j with
  | PNone => HNone
  | PBool b => HBool b
  | PInt z => HInt z
  | PFloat f => HFloat f
  | PStr s => HStr s
  | PList l =>
      HList l ((fix all (l : list json) : Forall P l :=
                  match l with
                  | [] => Forall_nil P
                  | x :: r => Forall_cons x (json_ind x) (all r)
                  end) l)
  | PDict d =>
      HDict d ((fix all (d : list (string * json))
                  : Forall (fun kv => P (snd kv)) d :=
                  match d with
                  | [] => Forall_nil _
                  | kv :: r =>
                      Forall_cons (P := fun kv => P (snd kv)) kv
                        (json_ind (snd kv)) (all r)
                  end) d)
  end.
End json_induction.

(** ** Python equality on documents

    [v not in [0, 0.0, "", [], {}, None]] compares with [==].  Numbers of the
    three numeric types compare by exact value ([False == 0 == 0.0 == -0.0]),
    NaN equals nothing, lists compare element by element, dictionaries by key
    set and value, and values of different kinds are unequal. *)

Inductive number : Type :=
| NNan
| NInf (negative : bool)
| NFin (m e : Z).     (* the value m * 2^e *)

Definition number_of_float (f : spec_float) : number :=
  match f with
  | S754_zero _ => NFin 0 0
  | S754_infinity s => NInf s
  | S754_nan => NNan
  | S754_finite s m e => NFin (if s then Z.neg m else Z.pos m) e
  end.

Definition number_eqb (a b : number) : bool :=
  match a, b with
  | NInf s, NInf t => Bool.eqb s t
  | NFin m1 e1, NFin m2 e2 =>
      let e := Z.min e1 e2 in
      (m1 * 2 ^ (e1 - e) =? m2 * 2 ^ (e2 - e))
  | _, _ => false
  end.

Definition as_number (v : json) : option number :=
  match v with
  | PBool b => Some (NFin (if b then 1 else 0) 0)
  | PInt z => Some (NFin z 0)
  | PFloat f => Some (number_of_float f)
  | _ => None
  end.

Fixpoint lookup (k : string) (d : list (string * json)) : option json :=
  match d with
  | [] => None
  | (k', v) :: r => if String.eqb k k' then Some v else lookup k r
  end.

Fixpoint py_eq (a b : json) {struct a} : bool :=
  match a, b with
  | PNone, PNone => true
  | PBool _, _ | PInt _, _ | PFloat _, _ =>
      match as_number a, as_number b with
      | Some x, Some y => number_eqb x y
      | _, _ => false
      end
  | PStr s, PStr t => String.eqb s t
  | PList l, PList m =>
      (fix each (l m : list json) {struct l} : bool :=
         match l, m with
         | [], [] => true
         | x :: l', y :: m' => py_eq x y && each l' m'
         | _, _ => false
         end) l m
  | PDict d, PDict e =>
      (Nat.eqb (List.length d) (List.length e)
       && forallb (fun kv => match lookup (fst kv) e with
                             | Some w => py_eq (snd kv) w
                             | None => false
                             end) d)%bool
  | _, _ => false
  end.

(** [x in l] for a list literal [l]: some element equals [x]. *)
Definition py_in (x : json) (l : list json) : bool :=
  existsb (fun e => py_eq e x) l.
Arguments py_in : simpl never.

Definition float_zero : spec_float := S754_zero false.

(** ** [SparkEnvironment.json_compaction] *)

Definition dict_sentinels : list json :=
  [PInt 0; PFloat float_zero; PStr ""; PList []; PDict []; PNone].

Definition list_sentinels : list json :=
  [PFloat float_zero; PDict []; PList []; PNone].

Fixpoint json_compaction (json_data : json) : json :=
  match json_data with
  | PDict d =>
      PDict ((fix comprehension (items : list (string * json)) :=
                match items with
                | [] => []
                | (k, v) :: rest =>
                    if negb (py_in v dict_sentinels)
                    then (k, json_compaction v) :: comprehension rest
                    else comprehension rest
                end) d)
  | PList l =>
      (fix loop (items : list json) :=
         match items with
         | [] => PList []
         | item :: rest =>
             if negb (py_in item list_sentinels)
             then PList (map json_compaction l)
             else loop rest
         end) l
  | _ => json_data
  end.

(** The comprehension and the loop, as list functions. *)

Definition dict_empty (v : json) : bool := py_in v dict_sentinels.
Definition list_empty (v : json) : bool := py_in v list_sentinels.

Definition compact_items (d : list (string * json)) : list (string * json) :=
  map (fun kv => (fst kv, json_compaction (snd kv)))
      (filter (fun kv => negb (dict_empty (snd kv))) d).

Definition keys (d : list (string * json)) : list string := map fst d.

(** What the two membership tests accept, by kind of value. *)

Definition zero_number (v : json) : bool :=
  match v with
  | PBool b => negb b
  | PInt z => z =? 0
  | PFloat (S754_zero _) => true
  | _ => false
  end.

Definition empty_container (v : json) : bool :=
  match v with
  | PList [] | PDict [] => true
  | _ => false
  end.

Definition is_container (v : json) : bool :=
  match v with
  | PList _ | PDict _ => true
  | _ => false
  end.

Definition is_none (v : json) : bool :=
  match v with PNone => true | _ => false end.

Definition empty_string (v : json) : bool :=
  match v with PStr "" => true | _ => false end.

(** Fixed points of the compaction, and documents in which no non-empty
    dictionary or list below the root compacts to an empty one. *)

Fixpoint stable (j : json) : bool :=
  match j with
  | PDict d =>
      forallb (fun kv => negb (dict_empty (snd kv)) && stable (snd kv)) d
  | PList l =>
      (match l with [] => true | _ => negb (forallb list_empty l) end)
      && forallb stable l
  | _ => true
  end.

Definition keeps_content (v : json) : bool :=
  implb (empty_container (json_compaction v)) (empty_container v).

Fixpoint collapse_free (j : json) : bool :=
  match j with
  | PDict d =>
      forallb (fun kv => keeps_content (snd kv) && collapse_free (snd kv)) d
  | PList l =>
      forallb (fun x => keeps_content x && collapse_free x) l
  | _ => true
  end.

(** The empty sentinels as the specification reads them, by kind of value:
    a number equal to zero (an integer or a float), [{}], [[]] and [None]
    for an element of a list, and [""] as well for a value under a key.  A
    boolean is none of them. *)

Definition claimed_list_sentinel (v : json) : bool :=
  match v with
  | PNone => true
  | PInt z => z =? 0
  | PFloat (S754_zero _) => true
  | PList [] | PDict [] => true
  | _ => false
  end.

Definition claimed_sentinel (v : json) : bool :=
  claimed_list_sentinel v || empty_string v.

Fixpoint claimed_sentinel_free (j : json) : bool :=
  negb (claimed_sentinel j)
  && match j with
     | PDict d => forallb (fun kv => claimed_sentinel_free (snd kv)) d
     | PList l => forallb claimed_sentinel_free l
     | _ => true
     end.

(** The same sentinels and the boolean [False]; a document in which no
    value, at any depth and the root included, is one of them. *)

Definition is_false (v : json) : bool :=
  match v with PBool false => true | _ => false end.

Definition empty_value (v : json) : bool := claimed_sentinel v || is_false v.

Fixpoint no_empty_value (j : json) : bool :=
  negb (empty_value j)
  && match j with
     | PDict d => forallb (fun kv => no_empty_value (snd kv)) d
     | PList l => forallb no_empty_value l
     | _ => true
     end.

(** A dictionary has each key once, at every level. *)

Fixpoint distinct (ks : list string) : bool :=
  match ks with
  | [] => true
  | k :: r => negb (existsb (String.eqb k) r) && distinct r
  end.

Fixpoint well_formed (j : json) : bool :=
  match j with
  | PDict d => distinct (keys d) && forallb (fun kv => well_formed (snd kv)) d
  | PList l => forallb well_formed l
  | _ => true
  end.

(** Documents of the examples. *)

Definition doc_nested_empty : json := PDict [("a", PDict [("b", PDict [])])].
Definition doc_all_empty_list : json :=
  PDict [("a", PList [PInt 0; PFloat float_zero; PNone])].
Definition doc_mixed_list : json := PDict [("a", PList [PInt 0; PInt 5; PInt 0])].
Definition doc_flat : json := PDict [("a", PInt 0); ("b", PInt 1); ("c", PStr "")].
Definition doc_false : json := PDict [("a", PBool false)].
(** [{"active": False, "n": 1}] and [[False, None]] *)
Definition doc_flag : json := PDict [("active", PBool false); ("n", PInt 1)].
Definition list_false_none : list json := [PBool false; PNone].
(** [{"a": [1, "x", True], "b": 2.5, "c": {"d": 7}}] *)
Definition doc_informative : json :=
  PDict [("a", PList [PInt 1; PStr "x"; PBool true]);
         ("b", PFloat (S754_finite false 5 (-1)));
         ("c", PDict [("d", PInt 7)])].
(** [{"a": [0, 5, 0], "b": 0, "c": {"d": "x", "e": None}}] *)
Definition doc_partly_empty : json :=
  PDict [("a", PList [PInt 0; PInt 5; PInt 0]); ("b", PInt 0);
         ("c", PDict [("d", PStr "x"); ("e", PNone)])].

(** ** Python operations on decoded documents *)

Inductive exn : Type :=
| Exception_ (msg : string)         (* [raise Exception(...)] *)
| RequestException (msg : string)   (* raised inside [requests.get] *)
| JSONDecodeError
| AttributeError
| TypeError
| KeyError
| IndexError.

(** [bool(v)], as in [if applications], [if jobs], [not job_details]. *)
Definition truthy (v : json) : bool :=
  match v with
  | PNone => false
  | PBool b => b
  | PInt z => negb (z =? 0)
  | PFloat (S754_zero _) => false
  | PFloat _ => true
  | PStr s => negb (String.eqb s "")
  | PList l => match l with [] => false | _ => true end
  | PDict d => match d with [] => false | _ => true end
  end.

(** [v[0]] *)
Definition item0 (v : json) : exn + json :=
  match v with
  | PList (x :: _) => inr x
  | PList [] => inl IndexError
  | PStr (String c _) => inr (PStr (String c ""))
  | PStr "" => inl IndexError
  | PDict _ => inl KeyError
  | _ => inl TypeError
  end.

(** [v[key]] for a string [key] *)
Definition item (v : json) (key : string) : exn + json :=
  match v with
  | PDict d => match lookup key d with Some x => inr x | None => inl KeyError end
  | _ => inl TypeError
  end.

(** [v.get(key, default)] *)
Definition dict_get (v : json) (key : string) (default : json) : exn + json :=
  match v with
  | PDict d => inr (match lookup key d with Some x => x | None => default end)
  | _ => inl AttributeError
  end.

Fixpoint chars (s : string) : list json :=
  match s with
  | "" => []
  | String c r => PStr (String c "") :: chars r
  end.

(** The elements a [for] loop or a comprehension visits. *)
Definition iterate (v : json) : exn + list json :=
  match v with
  | PList l => inr l
  | PDict d => inr (map PStr (keys d))
  | PStr s => inr (chars s)
  | _ => inl TypeError
  end.

(** [v.json()] on an already decoded document: no such attribute. *)
Definition json_method (v : json) : exn + json := inl AttributeError.

(** ** The HTTP boundary

    A response carries its status and, when its body parses, the decoded
    body.  The platform answers every GET by url and headers, or raises inside
    [requests.get]; it also renders floats, lists and dictionaries inside
    f-strings, the other kinds being rendered here. *)

Record Response : Type := { status_code : Z; body : option json }.

Record platform : Type := {
  requests_get : string -> list (string * string) -> exn + Response;
  repr_other : json -> string
}.

Definition string_of_Z (z : Z) : string :=
  DecimalString.NilZero.string_of_int (Z.to_int z).

Definition py_format (p : platform) (v : json) : string :=
  match v with
  | PNone => "None"
  | PBool true => "True"
  | PBool false => "False"
  | PInt z => string_of_Z z
  | PStr s => s
  | _ => repr_other p v
  end.

(** [response.json()] *)
Definition response_json (r : Response) : exn + json :=
  match body r with
  | Some j => inr j
  | None => inl JSONDecodeError
  end.

(** ** Effects: printed lines, requested urls, exceptions *)

Record io : Type := { stdout : list string; requested : list string }.

Definition start : io := {| stdout := []; requested := [] |}.

Definition M (A : Type) : Type := io -> (exn + A) * io.

Definition ret {A} (a : A) : M A := fun s => (inr a, s).

Definition raise {A} (e : exn) : M A := fun s => (inl e, s).

Definition bind {A B} (m : M A) (k : A -> M B) : M B :=
  fun s =>
    match m s with
    | (inl e, s') => (inl e, s')
    | (inr a, s') => k a s'
    end.

Declare Scope py_scope.
Delimit Scope py_scope with py.
Notation "x <- m ;; k" := (bind m (fun x => k))
  (at level 61, m at next level, right associativity) : py_scope.
Notation "m ;; k" := (bind m (fun _ => k))
  (at level 61, right associativity) : py_scope.
Local Open Scope py_scope.

Definition lift {A} (r : exn + A) : M A :=
  match r with
  | inl e => raise e
  | inr a => ret a
  end.

Definition print (line : string) : M unit :=
  fun s => (inr tt, {| stdout := stdout s ++ [line]; requested := requested s |}).

Definition get (p : platform) (url : string) (headers : list (string * string))
  : M Response :=
  fun s =>
    (requests_get p url headers,
     {| stdout := stdout s; requested := requested s ++ [url] |}).

(** A comprehension or an appending [for] loop whose body has effects. *)
Fixpoint for_each {A B} (f : A -> M B) (l : list A) : M (list B) :=
  match l with
  | [] => ret []
  | x :: r => y <- f x ;; ys <- for_each f r ;; ret (y :: ys)
  end.

(** ** The three metric sources *)

Module DatabricksSparkEnvironment.
Record t : Type := {
  application_id : json;
  databricks_token : json;
  databricks_instance : json;
  databricks_application_id : json
}.

Definition __init__ (databricks_token databricks_instance
                      databricks_application_id : json) : t :=
  {| application_id := PNone;
     databricks_token := databricks_token;
     databricks_instance := databricks_instance;
     databricks_application_id := databricks_application_id |}.

Definition _databricks_api_get (p : platform) (self : t) (endpoint : string)
  : M json :=
  let url := py_format p (databricks_instance self) ++ endpoint in
  let headers :=
    [("Authorization", "Bearer " ++ py_format p (databricks_token self))] in
  response <- get p url headers ;;
  if status_code response =? 200 then lift (response_json response)
  else raise (Exception_ ("Failed to fetch data from Databricks. Status: "
                            ++ string_of_Z (status_code response))).

Definition get_application_id (p : platform) (self : t) : M (t * json) :=
  jobs <- _databricks_api_get p self "/api/2.0/jobs/list" ;;
  id <- (if truthy jobs
         then (listing <- lift (item jobs "jobs") ;;
               first <- lift (item0 listing) ;;
               lift (item first "job_id"))
         else ret PNone) ;;
  ret ({| application_id := id;
          databricks_token := databricks_token self;
          databricks_instance := databricks_instance self;
          databricks_application_id := databricks_application_id self |},
       id).

Definition get_all_job_details_of_application (p : platform) (self : t)
  : M json :=
  let jobs_url := "/api/v1/applications/"
                  ++ py_format p (databricks_application_id self) ++ "/jobs" in
  response <- get p jobs_url [] ;;
  if status_code response =? 200 then lift (response_json response)
  else ret PNone.

Definition get_specific_job_details (p : platform) (self : t) (job_id : Z)
  : M json :=
  let job_url := "/api/v1/applications/"
                 ++ py_format p (databricks_application_id self)
                 ++ "/jobs/" ++ string_of_Z job_id in
  response <- get p job_url [] ;;
  if status_code response =? 200 then lift (response_json response)
  else ret PNone.

Definition get_stage_details (p : platform) (self : t) (job_id : Z) : M json :=
  job_details <- get_specific_job_details p self job_id ;;
  if negb (truthy job_details) then
    print ("Job ID " ++ string_of_Z job_id ++ " not found in application "
             ++ py_format p (databricks_application_id self) ++ ".") ;;
    ret PNone
  else
    stage_ids <- lift (dict_get job_details "stageIds" (PList [])) ;;
    ids <- lift (iterate stage_ids) ;;
    stages <- for_each
                (fun stage_id =>
                   let stage_url := "/api/v1/applications/"
                                    ++ py_format p (databricks_application_id self)
                                    ++ "/stages/" ++ py_format p stage_id in
                   decoded <- _databricks_api_get p self stage_url ;;
                   lift (json_method decoded))
                ids ;;
    ret (PDict [("job_id", PInt job_id); ("stages", PList stages)]).
End DatabricksSparkEnvironment.

Module NonDatabricksSparkEnvironment.
Record t : Type := {
  application_id : json;
  spark_master_url : json;
  NonDatabricksSparkEnvironment_application_id : json
}.

Definition __init__ (spark_master_url
                      NonDatabricksSparkEnvironment_application_id : json) : t :=
  {| application_id := PNone;
     spark_master_url := spark_master_url;
     NonDatabricksSparkEnvironment_application_id :=
       NonDatabricksSparkEnvironment_application_id |}.

Definition get_application_id (p : platform) (self : t) : M (t * json) :=
  let url := py_format p (spark_master_url self) ++ "/applications" in
  response <- get p url [] ;;
  if status_code response =? 200 then
    applications <- lift (response_json response) ;;
    id <- (if truthy applications
           then (first <- lift (item0 applications) ;; lift (item first "id"))
           else ret PNone) ;;
    ret ({| application_id := id;
            spark_master_url := spark_master_url self;
            NonDatabricksSparkEnvironment_application_id :=
              NonDatabricksSparkEnvironment_application_id self |},
         id)
  else ret (self, application_id self).

(** The url is built from [self.local_spark_ui_url], which this class
    does not have. *)
Definition get_all_job_details_of_application (p : platform) (self : t)
  : M json :=
  raise AttributeError.

Definition get_specific_job_details (p : platform) (self : t) (job_id : Z)
  : M json :=
  let job_url := py_format p (spark_master_url self) ++ "/applications/"
                 ++ py_format p (NonDatabricksSparkEnvironment_application_id self)
                 ++ "/jobs/" ++ string_of_Z job_id in
  response <- get p job_url [] ;;
  if status_code response =? 200 then lift (response_json response)
  else ret PNone.

Definition get_stage_details (p : platform) (self : t) (job_id : Z) : M json :=
  job_details <- get_specific_job_details p self job_id ;;
  if negb (truthy job_details) then
    print ("Job ID " ++ string_of_Z job_id ++ " not found in application "
             ++ py_format p (NonDatabricksSparkEnvironment_application_id self)
             ++ ".") ;;
    ret PNone
  else
    stage_ids <- lift (dict_get job_details "stageIds" (PList [])) ;;
    ids <- lift (iterate stage_ids) ;;
    stages <- for_each
                (fun stage_id =>
                   let stage_url :=
                     py_format p (spark_master_url self) ++ "/applications/"
                     ++ py_format p (NonDatabricksSparkEnvironment_application_id self)
                     ++ "/stages/" ++ py_format p stage_id in
                   response <- get p stage_url [] ;;
                   lift (response_json response))
                ids ;;
    ret (PDict [("job_id", PInt job_id); ("stages", PList stages)]).
End NonDatabricksSparkEnvironment.

Module LocalSparkEnvironment.
Record t : Type := {
  application_id : json;
  local_spark_ui_url : json;
  local_application_id : json
}.

Definition __init__ (local_spark_ui_url local_application_id : json) : t :=
  {| application_id := PNone;
     local_spark_ui_url := local_spark_ui_url;
     local_application_id := local_application_id |}.

Definition get_application_id (p : platform) (self : t) : M (t * json) :=
  let url := py_format p (local_spark_ui_url self) ++ "/applications" in
  response <- get p url [] ;;
  if status_code response =? 200 then
    applications <- lift (response_json response) ;;
    id <- (if truthy applications
           then (first <- lift (item0 applications) ;; lift (item first "id"))
           else ret PNone) ;;
    ret ({| application_id := id;
            local_spark_ui_url := local_spark_ui_url self;
            local_application_id := local_application_id self |},
         id)
  else ret (self, application_id self).

Definition get_all_job_details_of_application (p : platform) (self : t)
  : M json :=
  let jobs_url := py_format p (local_spark_ui_url self) ++ "/applications/"
                  ++ py_format p (local_application_id self) ++ "/jobs" in
  response <- get p jobs_url [] ;;
  if status_code response =? 200 then lift (response_json response)
  else ret PNone.

Definition get_specific_job_details (p : platform) (self : t) (job_id : Z)
  : M json :=
  let job_url := py_format p (local_spark_ui_url self) ++ "/applications/"
                 ++ py_format p (local_application_id self)
                 ++ "/jobs/" ++ string_of_Z job_id in
  response <- get p job_url [] ;;
  if status_code response =? 200 then lift (response_json response)
  else ret PNone.

Definition stage_url (p : platform) (self : t) (stage_id : json) : string :=
  py_format p (local_spark_ui_url self) ++ "/applications/"
  ++ py_format p (local_application_id self)
  ++ "/stages/" ++ py_format p stage_id.

Definition get_stage_details (p : platform) (self : t) (job_id : Z) : M json :=
  job_details <- get_specific_job_details p self job_id ;;
  if negb (truthy job_details) then
    print ("Job ID " ++ string_of_Z job_id ++ " not found in application "
             ++ py_format p (local_application_id self) ++ ".") ;;
    ret PNone
  else
    stage_ids <- lift (dict_get job_details "stageIds" (PList [])) ;;
    ids <- lift (iterate stage_ids) ;;
    stages <- for_each
                (fun stage_id =>
                   stage_details <- get p (stage_url p self stage_id) [] ;;
                   if status_code stage_details =? 200
                   then lift (response_json stage_details)
                   else ret PNone)
                ids ;;
    ret (PDict [("job_id", PInt job_id); ("stages", PList stages)]).

Definition get_task_details (p : platform) (self : t)
           (stage_id stage_attempt_id : json) : M json :=
  let task_url := py_format p (local_spark_ui_url self) ++ "/applications/"
                  ++ py_format p (local_application_id self)
                  ++ "/stages/" ++ py_format p stage_id
                  ++ "/" ++ py_format p stage_attempt_id ++ "/taskSummary" in
  response <- get p task_url [] ;;
  print (string_of_Z (status_code response)) ;;
  if status_code response =? 200 then lift (response_json response)
  else ret PNone.
End LocalSparkEnvironment.

(** ** [SparkEnvironmentFactory] and dispatch on the class of the source *)

Inductive SparkEnvironment : Type :=
| Databricks (self : DatabricksSparkEnvironment.t)
| NonDatabricks (self : NonDatabricksSparkEnvironment.t)
| Local (self : LocalSparkEnvironment.t).

(** [kwargs.get(name)] *)
Definition kwargs_get (kwargs : list (string * json)) (name : string) : json :=
  match lookup name kwargs with
  | Some v => v
  | None => PNone
  end.

Definition get_spark_environment (is_databricks is_local : bool)
           (kwargs : list (string * json)) : SparkEnvironment :=
  if is_local then
    Local (LocalSparkEnvironment.__init__
             (kwargs_get kwargs "local_spark_ui_url")
             (kwargs_get kwargs "local_application_id"))
  else if is_databricks then
    Databricks (DatabricksSparkEnvironment.__init__
                  (kwargs_get kwargs "databricks_token")
                  (kwargs_get kwargs "databricks_instance")
                  (kwargs_get kwargs "databricks_application_id"))
  else
    NonDatabricks (NonDatabricksSparkEnvironment.__init__
                     (kwargs_get kwargs "spark_master_url")
                     (kwargs_get kwargs
                        "NonDatabricksSparkEnvironment_application_id")).

Definition get_application_id (p : platform) (env : SparkEnvironment)
  : M (SparkEnvironment * json) :=
  match env with
  | Databricks self =>
      r <- DatabricksSparkEnvironment.get_application_id p self ;;
      ret (Databricks (fst r), snd r)
  | NonDatabricks self =>
      r <- NonDatabricksSparkEnvironment.get_application_id p self ;;
      ret (NonDatabricks (fst r), snd r)
  | Local self =>
      r <- LocalSparkEnvironment.get_application_id p self ;;
      ret (Local (fst r), snd r)
  end.

Definition cached_application_id (env : SparkEnvironment) : json :=
  match env with
  | Databricks self => DatabricksSparkEnvironment.application_id self
  | NonDatabricks self => NonDatabricksSparkEnvironment.application_id self
  | Local self => LocalSparkEnvironment.application_id self
  end.

Definition get_all_job_details_of_application (p : platform)
           (env : SparkEnvironment) : M json :=
  match env with
  | Databricks self =>
      DatabricksSparkEnvironment.get_all_job_details_of_application p self
  | NonDatabricks self =>
      NonDatabricksSparkEnvironment.get_all_job_details_of_application p self
  | Local self =>
      LocalSparkEnvironment.get_all_job_details_of_application p self
  end.

Definition get_specific_job_details (p : platform) (env : SparkEnvironment)
           (job_id : Z) : M json :=
  match env with
  | Databricks self =>
      DatabricksSparkEnvironment.get_specific_job_details p self job_id
  | NonDatabricks self =>
      NonDatabricksSparkEnvironment.get_specific_job_details p self job_id
  | Local self => LocalSparkEnvironment.get_specific_job_details p self job_id
  end.

Definition get_stage_details (p : platform) (env : SparkEnvironment)
           (job_id : Z) : M json :=
  match env with
  | Databricks self => DatabricksSparkEnvironment.get_stage_details p self job_id
  | NonDatabricks self =>
      NonDatabricksSparkEnvironment.get_stage_details p self job_id
  | Local self => LocalSparkEnvironment.get_stage_details p self job_id
  end.

(** Called as [get_task_details(stage_id=..., stage_attempt_id=...)]; only the
    local class accepts the second keyword. *)
Definition get_task_details (p : platform) (env : SparkEnvironment)
           (stage_id stage_attempt_id : json) : M json :=
  match env with
  | Local self =>
      LocalSparkEnvironment.get_task_details p self stage_id stage_attempt_id
  | _ => raise TypeError
  end.

(** ** [main]: collection of the report

    Lines 343-358 of [main], for any list of job ids ([main] runs them on
    [[jobId]]): the stage details of every job, the stage and attempt ids
    read from them, and the task details of every such pair. *)

Definition stage_field (field : string) (stage : json) : M json :=
  first <- lift (item0 stage) ;;
  lift (dict_get first field PNone).

Definition collect (p : platform) (spark_env : SparkEnvironment)
           (all_job_ids : list Z) : M (list json * list json) :=
  all_jobs_stage_details <- for_each (get_stage_details p spark_env) all_job_ids ;;
  all_stage_ids <-
    for_each (fun single_stage_details =>
                stages <- lift (dict_get single_stage_details "stages" PNone) ;;
                each <- lift (iterate stages) ;;
                for_each (stage_field "stageId") each)
             all_jobs_stage_details ;;
  all_stage_and_attempt_ids <-
    for_each (fun single_stage_details =>
                stages <- lift (dict_get single_stage_details "stages" PNone) ;;
                each <- lift (iterate stages) ;;
                for_each (fun stage =>
                            stageId <- stage_field "stageId" stage ;;
                            attemptId <- stage_field "attemptId" stage ;;
                            ret (PDict [("stageId", stageId);
                                        ("attemptId", attemptId)]))
                         each)
             all_jobs_stage_details ;;
  all_task_details <-
    for_each (fun mappedIds =>
                stage_id <- lift (dict_get mappedIds "stageId" PNone) ;;
                stage_attempt_id <- lift (dict_get mappedIds "attemptId" PNone) ;;
                get_task_details p spark_env stage_id stage_attempt_id)
             (List.concat all_stage_and_attempt_ids) ;;
  ret (all_jobs_stage_details, all_task_details).

(** [main] up to the compaction of the report; what follows in the source
    writes files and asks for advice.  The result is [return_json] and
    [formatted_data]. *)
Definition main (p : platform) : M (json * json) :=
  let application_id := PStr "local-1728540004669" in
  let spark_env :=
    get_spark_environment false true
      [("local_spark_ui_url", PStr "http://localhost:4040/api/v1");
       ("local_application_id", application_id)] in
  let jobId := 22 in
  all_job_details_of_application <-
    get_all_job_details_of_application p spark_env ;;
  listed <- lift (iterate all_job_details_of_application) ;;
  all_job_ids <- for_each (fun jobs => lift (dict_get jobs "jobId" PNone)) listed ;;
  lift (item0 (PList all_job_ids)) ;;
  specific_job_details <- get_specific_job_details p spark_env jobId ;;
  let all_job_ids := [jobId] in
  print ("[" ++ string_of_Z jobId ++ "]") ;;
  details <- collect p spark_env all_job_ids ;;
  let return_json :=
    PDict [("applicationId", application_id);
           ("specificJobDetails", specific_job_details);
           ("stageDetails", PList (fst details));
           ("task_details", PList (snd details))] in
  let formatted_data := json_compaction return_json in
  ret (return_json, formatted_data).

(** ** Backends and sources of the examples *)

Definition not_found : Response := {| status_code := 404; body := None |}.

Definition ok (j : json) : Response := {| status_code := 200; body := Some j |}.

Fixpoint answer (table : list (string * Response)) (url : string) : Response :=
  match table with
  | [] => not_found
  | (u, r) :: rest => if String.eqb url u then r else answer rest url
  end.

(** A backend that answers the listed urls and 404, with a body that is not
    JSON, everywhere else. *)
Definition backend (table : list (string * Response)) : platform :=
  {| requests_get := fun url _ => inr (answer table url);
     repr_other := fun _ => "" |}.

Definition local_ui : LocalSparkEnvironment.t :=
  LocalSparkEnvironment.__init__ (PStr "http://localhost:4040/api/v1")
    (PStr "local-1728540004669").

Definition standalone : NonDatabricksSparkEnvironment.t :=
  NonDatabricksSparkEnvironment.__init__ (PStr "http://localhost:4040/api/v1")
    (PStr "local-1728540004669").

Definition workspace : DatabricksSparkEnvironment.t :=
  DatabricksSparkEnvironment.__init__ (PStr "token")
    (PStr "https://adb.example.net") (PStr "local-1728540004669").

Definition app_url : string :=
  "http://localhost:4040/api/v1/applications/local-1728540004669".

(** The application lists job 21 only; job 22 is unknown. *)
Definition backend_without_job_22 : platform :=
  backend [(app_url ++ "/jobs", ok (PList [PDict [("jobId", PInt 21)]]))].

Definition stage_5 : json := PList [PDict [("stageId", PInt 5); ("attemptId", PInt 0)]].
Definition stage_6 : json := PList [PDict [("stageId", PInt 6); ("attemptId", PInt 0)]].

(** Job 3 has stage 5; job 7 is unknown. *)
Definition backend_job_3_only : platform :=
  backend [(app_url ++ "/jobs/3",
            ok (PDict [("jobId", PInt 3); ("stageIds", PList [PInt 5])]));
           (app_url ++ "/stages/5", ok stage_5);
           (app_url ++ "/stages/5/0/taskSummary",
            ok (PDict [("quantiles", PList [PFloat (S754_finite false 1 (-1))])]))].

(** Job 22 has stages 5 and 6; the fetch of stage 5 fails. *)
Definition backend_stage_5_failing : platform :=
  backend [(app_url ++ "/jobs/22",
            ok (PDict [("jobId", PInt 22); ("stageIds", PList [PInt 5; PInt 6])]));
           (app_url ++ "/stages/6", ok stage_6)].

(** The job listing of the workspace is empty. *)
Definition backend_no_jobs : platform :=
  backend [("https://adb.example.net/api/2.0/jobs/list",
            ok (PDict [("jobs", PList [])]));
           ("http://localhost:4040/api/v1/applications", ok (PList []))].

(** The url of the job lookup and the application named in the warning, by
    class of the source. *)
Definition job_url (p : platform) (env : SparkEnvironment) (job_id : Z) : string :=
  match env with
  | Databricks self =>
      "/api/v1/applications/"
      ++ py_format p (DatabricksSparkEnvironment.databricks_application_id self)
      ++ "/jobs/" ++ string_of_Z job_id
  | NonDatabricks self =>
      py_format p (NonDatabricksSparkEnvironment.spark_master_url self)
      ++ "/applications/"
      ++ py_format p
           (NonDatabricksSparkEnvironment.NonDatabricksSparkEnvironment_application_id self)
      ++ "/jobs/" ++ string_of_Z job_id
  | Local self =>
      py_format p (LocalSparkEnvironment.local_spark_ui_url self)
      ++ "/applications/"
      ++ py_format p (LocalSparkEnvironment.local_application_id self)
      ++ "/jobs/" ++ string_of_Z job_id
  end.

Definition named_application (env : SparkEnvironment) : json :=
  match env with
  | Databricks self => DatabricksSparkEnvironment.databricks_application_id self
  | NonDatabricks self =>
      NonDatabricksSparkEnvironment.NonDatabricksSparkEnvironment_application_id self
  | Local self => LocalSparkEnvironment.local_application_id self
  end.

Definition warning (p : platform) (env : SparkEnvironment) (job_id : Z) : string :=
  "Job ID " ++ string_of_Z job_id ++ " not found in application "
  ++ py_format p (named_application env) ++ ".".

(** The backend answers the lookup of the job with a status other than 200. *)
Definition job_unknown (p : platform) (env : SparkEnvironment) (job_id : Z) : Prop :=
  exists r, requests_get p (job_url p env job_id) [] = inr r
            /\ status_code r <> 200.


(** What the local stage loop appends for one stage id. *)
Definition stage_result (p : platform) (self : LocalSparkEnvironment.t)
           (stage_id : json) : json :=
  match requests_get p (LocalSparkEnvironment.stage_url p self stage_id) [] with
  | inr r =>
      if status_code r =? 200
      then match body r with Some j => j | None => PNone end
      else PNone
  | inl _ => PNone
  end.

(** The request comes back, and with a body that parses when the status is
    200. *)
Definition fetch_returns (p : platform) (url : string) : Prop :=
  exists r, requests_get p url [] = inr r
            /\ (status_code r = 200 -> body r <> None).

(** The request that lists applications or jobs, by class of the source. *)
Definition listing_url (p : platform) (env : SparkEnvironment) : string :=
  match env with
  | Databricks self =>
      py_format p (DatabricksSparkEnvironment.databricks_instance self)
      ++ "/api/2.0/jobs/list"
  | NonDatabricks self =>
      py_format p (NonDatabricksSparkEnvironment.spark_master_url self)
      ++ "/applications"
  | Local self =>
      py_format p (LocalSparkEnvironment.local_spark_ui_url self)
      ++ "/applications"
  end.

Definition listing_headers (p : platform) (env : SparkEnvironment)
  : list (string * string) :=
  match env with
  | Databricks self =>
      [("Authorization",
        "Bearer " ++ py_format p (DatabricksSparkEnvironment.databricks_token self))]
  | _ => []
  end.

(** The source with [application_id] set. *)
Definition cache (env : SparkEnvironment) (id : json) : SparkEnvironment :=
  match env with
  | Databricks self =>
      Databricks
        {| DatabricksSparkEnvironment.application_id := id;
           DatabricksSparkEnvironment.databricks_token :=
             DatabricksSparkEnvironment.databricks_token self;
           DatabricksSparkEnvironment.databricks_instance :=
             DatabricksSparkEnvironment.databricks_instance self;
           DatabricksSparkEnvironment.databricks_application_id :=
             DatabricksSparkEnvironment.databricks_application_id self |}
  | NonDatabricks self =>
      NonDatabricks
        {| NonDatabricksSparkEnvironment.application_id := id;
           NonDatabricksSparkEnvironment.spark_master_url :=
             NonDatabricksSparkEnvironment.spark_master_url self;
           NonDatabricksSparkEnvironment.NonDatabricksSparkEnvironment_application_id :=
             NonDatabricksSparkEnvironment.NonDatabricksSparkEnvironment_application_id self |}
  | Local self =>
      Local
        {| LocalSparkEnvironment.application_id := id;
           LocalSparkEnvironment.local_spark_ui_url :=
             LocalSparkEnvironment.local_spark_ui_url self;
           LocalSparkEnvironment.local_application_id :=
             LocalSparkEnvironment.local_application_id self |}
  end.

Definition is_databricks_source (env : SparkEnvironment) : bool :=
  match env with
  | Databricks _ => true
  | _ => false
  end.

Definition raised {A} (r : (exn + A) * io) : option exn :=
  match fst r with
  | inl e => Some e
  | inr _ => None
  end.

(** ** Measures and shapes of documents *)

(** Number of nodes of a document, a dictionary item counting for its key
    and its value. *)
Fixpoint size (j : json) : nat :=
  match j with
  | PDict d => S (list_sum (map (fun kv => S (size (snd kv))) d))
  | PList l => S (list_sum (map size l))
  | _ => 1%nat
  end.

(** No dictionary, at any depth, has a falsy value other than an empty list
    or an empty dictionary. *)
Fixpoint mapping_values_informative (j : json) : bool :=
  match j with
  | PDict d =>
      forallb (fun kv => (truthy (snd kv) || empty_container (snd kv))
                         && mapping_values_informative (snd kv)) d
  | PList l => forallb mapping_values_informative l
  | _ => true
  end.

(** The stages recorded in one entry of [all_jobs_stage_details]. *)
Definition stages_of (single_stage_details : json) : list json :=
  match single_stage_details with
  | PDict items =>
      match lookup "stages" items with
      | Some (PList stages) => stages
      | _ => []
      end
  | _ => []
  end.

(** ** [get_executor_details], by class of the source

    The local class parses the body without looking at the status; the
    workspace class goes through [_databricks_api_get] with the cluster id
    left as the placeholder of the source and reads the key [executors]; the
    standalone class builds its url from [self.local_spark_ui_url], which it
    does not have. *)
Definition get_executor_details (p : platform) (env : SparkEnvironment) : M json :=
  match env with
  | Local self =>
      let executors_url :=
        py_format p (LocalSparkEnvironment.local_spark_ui_url self)
        ++ "/applications/"
        ++ py_format p (LocalSparkEnvironment.local_application_id self)
        ++ "/executors" in
      response <- get p executors_url [] ;;
      executors <- lift (response_json response) ;;
      ret (PDict [("executors", executors)])
  | Databricks self =>
      let cluster_id := "<your-cluster-id>" in
      answer <- DatabricksSparkEnvironment._databricks_api_get p self
                  ("/api/2.0/clusters/get?cluster_id=" ++ cluster_id) ;;
      executors <- lift (item answer "executors") ;;
      ret (PDict [("executors", executors)])
  | NonDatabricks self => raise AttributeError
  end.

Definition is_local_source (env : SparkEnvironment) : bool :=
  match env with
  | Local _ => true
  | _ => false
  end.

(** Job 4 is described by [{}], job 8 by a document without [stageIds]. *)
Definition backend_odd_jobs : platform :=
  backend [(app_url ++ "/jobs/4", ok (PDict []));
           (app_url ++ "/jobs/8", ok (PDict [("jobId", PInt 8)]))].

(** What the collection of job 3 gives on [backend_job_3_only]. *)
Definition job_3_stage_details : list json :=
  [PDict [("job_id", PInt 3); ("stages", PList [stage_5])]].

Definition job_3_task_details : list json :=
  [PDict [("quantiles", PList [PFloat (S754_finite false 1 (-1))])]].

Definition job_3_final : io :=
  {| stdout := ["200"];
     requested := [app_url ++ "/jobs/3"; app_url ++ "/stages/5";
                   app_url ++ "/stages/5/0/taskSummary"] |}.

(** One application, [app-7], is listed. *)
Definition backend_one_application : platform :=
  backend [("http://localhost:4040/api/v1/applications",
            ok (PList [PDict [("id", PStr "app-7"); ("name", PStr "etl")]]))].

Definition after_listing : io :=
  {| stdout := []; requested := ["http://localhost:4040/api/v1/applications"] |}.

(** The executors url answers 500 with a JSON error document. *)
Definition backend_executors_failing : platform :=
  backend [(app_url ++ "/executors",
            {| status_code := 500;
               body := Some (PDict [("error", PStr "unavailable")]) |})].

(** The keywords [main] passes to the factory. *)
Definition main_kwargs : list (string * json) :=
  [("local_spark_ui_url", PStr "http://localhost:4040/api/v1");
   ("local_application_id", PStr "local-1728540004669")].

(** Jobs 7 and 3 are both known: job 7 has stage 6, job 3 has stage 5. *)
Definition backend_jobs_7_and_3 : platform :=
  backend [(app_url ++ "/jobs/7",
            ok (PDict [("jobId", PInt 7); ("stageIds", PList [PInt 6])]));
           (app_url ++ "/jobs/3",
            ok (PDict [("jobId", PInt 3); ("stageIds", PList [PInt 5])]));
           (app_url ++ "/stages/6", ok stage_6);
           (app_url ++ "/stages/5", ok stage_5);
           (app_url ++ "/stages/6/0/taskSummary",
            ok (PDict [("quantiles", PList [PInt 1])]));
           (app_url ++ "/stages/5/0/taskSummary",
            ok (PDict [("quantiles", PList [PInt 2])]))].

Definition jobs_7_and_3_stage_details : list json :=
  [PDict [("job_id", PInt 7); ("stages", PList [stage_6])];
   PDict [("job_id", PInt 3); ("stages", PList [stage_5])]].

Definition jobs_7_and_3_task_details : list json :=
  [PDict [("quantiles", PList [PInt 1])]; PDict [("quantiles", PList [PInt 2])]].

Definition jobs_7_and_3_final : io :=
  {| stdout := ["200"; "200"];
     requested := [app_url ++ "/jobs/7"; app_url ++ "/stages/6";
                   app_url ++ "/jobs/3"; app_url ++ "/stages/5";
                   app_url ++ "/stages/6/0/taskSummary";
                   app_url ++ "/stages/5/0/taskSummary"] |}.

(** A transport that, as [requests.get] does, refuses a url that starts with
    [/], for it names no scheme, before any exchange with a server. *)
Definition missing_schema : exn := RequestException "MissingSchema".

Definition refuses_urls_without_scheme (p : platform) : Prop :=
  forall path headers, requests_get p (String "/" path) headers = inl missing_schema.

Definition strict_backend (table : list (string * Response)) : platform :=
  {| requests_get := fun url _ =>
                       match url with
                       | String "/" _ => inl missing_schema
                       | _ => inr (answer table url)
                       end;
     repr_other := fun _ => "" |}.

(** ** Properties of the compaction *)

Lemma json_compaction_dict d :
  json_compaction (PDict d) = PDict (compact_items d).
Proof.
  unfold compact_items, dict_empty. simpl. f_equal.
  induction d as [|[k v] r IH]; simpl; [reflexivity|].
  destruct (py_in v dict_sentinels); simpl; now rewrite IH.
Qed.

Lemma json_compaction_list l :
  json_compaction (PList l) =
  if forallb list_empty l then PList [] else PList (map json_compaction l).
Proof.
  unfold list_empty. simpl.
  generalize (PList (map json_compaction l)). intros survivor.
  induction l as [|x r IH]; simpl; [reflexivity|].
  destruct (py_in x list_sentinels); simpl; [exact IH | reflexivity].
Qed.

Lemma number_eqb_zero_l n :
  number_eqb (NFin 0 0) n = match n with NFin m _ => m =? 0 | _ => false end.
Proof.
  destruct n as [| s | m e]; try reflexivity.
  unfold number_eqb.
  assert (H : 0 < 2 ^ (e - Z.min 0 e)) by (apply Z.pow_pos_nonneg; lia).
  destruct (Z.eqb_spec m 0) as [->|Hm].
  - apply Z.eqb_eq. lia.
  - apply Z.eqb_neq. nia.
Qed.

Lemma py_eq_int_l z v :
  py_eq (PInt z) v =
  match as_number v with
  | Some y => number_eqb (NFin z 0) y
  | None => false
  end.
Proof. destruct v; reflexivity. Qed.

Lemma py_eq_zero_l v : py_eq (PInt 0) v = zero_number v.
Proof.
  rewrite py_eq_int_l.
  destruct v as [| b | z | f | s | l | d]; cbn [as_number zero_number];
    rewrite ?number_eqb_zero_l; try reflexivity.
  - now destruct b.
  - destruct f as [s | s | | s m e]; try reflexivity. now destruct s.
Qed.

Lemma py_eq_float_zero_l v : py_eq (PFloat float_zero) v = zero_number v.
Proof.
  rewrite <- py_eq_zero_l. destruct v; reflexivity.
Qed.

Lemma dict_empty_spec v :
  dict_empty v =
  zero_number v || empty_string v || empty_container v || is_none v.
Proof.
  unfold dict_empty, py_in, dict_sentinels, existsb.
  rewrite py_eq_zero_l, py_eq_float_zero_l.
  destruct (zero_number v); [reflexivity|].
  destruct v as [| b | z | f | s | l | d]; try reflexivity;
    try (destruct s; reflexivity); try (destruct l; reflexivity);
    destruct d; reflexivity.
Qed.

Lemma list_empty_spec v :
  list_empty v = zero_number v || empty_container v || is_none v.
Proof.
  unfold list_empty, py_in, list_sentinels, existsb.
  rewrite py_eq_float_zero_l.
  destruct (zero_number v); [reflexivity|].
  destruct v as [| b | z | f | s | l | d]; try reflexivity;
    try (destruct l; reflexivity); destruct d; reflexivity.
Qed.

Lemma list_empty_dict_empty v : list_empty v = true -> dict_empty v = true.
Proof.
  rewrite list_empty_spec, dict_empty_spec.
  destruct (zero_number v), (empty_container v), (is_none v),
    (empty_string v); simpl; congruence.
Qed.

Lemma leaf_unchanged v : is_container v = false -> json_compaction v = v.
Proof. destruct v; simpl; congruence. Qed.

Lemma container_compacts_to_container v :
  is_container v = true -> is_container (json_compaction v) = true.
Proof.
  destruct v as [| | | | | l | d]; try discriminate; intros _.
  - rewrite json_compaction_list. now destruct (forallb list_empty l).
  - now rewrite json_compaction_dict.
Qed.

Lemma container_dict_empty v :
  is_container v = true -> dict_empty v = empty_container v.
Proof.
  rewrite dict_empty_spec. destruct v; try discriminate; intros _; simpl;
    now rewrite orb_false_r.
Qed.

Lemma container_list_empty v :
  is_container v = true -> list_empty v = empty_container v.
Proof.
  rewrite list_empty_spec. destruct v; try discriminate; intros _; simpl;
    now rewrite orb_false_r.
Qed.

(** A value that is kept and does not collapse is still kept after its
    compaction. *)
Lemma kept_stays_kept_dict v :
  keeps_content v = true -> dict_empty v = false ->
  dict_empty (json_compaction v) = false.
Proof.
  unfold keeps_content. intros Hk Hv.
  destruct (is_container v) eqn:Hc.
  - rewrite container_dict_empty in * by auto using container_compacts_to_container.
    destruct (empty_container (json_compaction v)); [|reflexivity].
    simpl in Hk. congruence.
  - now rewrite leaf_unchanged.
Qed.

Lemma kept_stays_kept_list v :
  keeps_content v = true -> list_empty v = false ->
  list_empty (json_compaction v) = false.
Proof.
  unfold keeps_content. intros Hk Hv.
  destruct (is_container v) eqn:Hc.
  - rewrite container_list_empty in * by auto using container_compacts_to_container.
    destruct (empty_container (json_compaction v)); [|reflexivity].
    simpl in Hk. congruence.
  - now rewrite leaf_unchanged.
Qed.

Lemma stable_fixed j : stable j = true -> json_compaction j = j.
Proof.
  induction j as [| | | | | l IH | d IH] using json_ind; try reflexivity.
  - cbn [stable]. rewrite json_compaction_list. intros H.
    apply andb_prop in H as [Hne Hall].
    assert (Hmap : map json_compaction l = l).
    { clear Hne. induction IH as [|x r Hx _ IHr]; [reflexivity|].
      cbn [forallb] in Hall. apply andb_prop in Hall as [Hsx Hsr].
      cbn [map]. now rewrite Hx, IHr. }
    destruct l as [|x r]; [reflexivity|].
    apply negb_true_iff in Hne. now rewrite Hne, Hmap.
  - cbn [stable]. rewrite json_compaction_dict. intros H. f_equal.
    unfold compact_items.
    induction IH as [|[k v] r Hv _ IHr]; [reflexivity|].
    cbn [forallb snd] in H. apply andb_prop in H as [Hkv Hr].
    apply andb_prop in Hkv as [Hk Hs].
    cbn [filter snd]. rewrite Hk. cbn [map fst snd].
    simpl in Hv. now rewrite Hv, IHr.
Qed.

Lemma filter_length_le {A} (f : A -> bool) l :
  (List.length (filter f l) <= List.length l)%nat.
Proof. induction l as [|x r IH]; simpl; [lia|]. destruct (f x); simpl; lia. Qed.

Lemma map_fixed_forallb {A} (f : A -> A) (ok : A -> bool) l :
  Forall (fun x => f x = x -> ok x = true) l ->
  map f l = l -> forallb ok l = true.
Proof.
  induction 1 as [|y s Hy _ IHs]; [reflexivity|].
  cbn [map forallb]. intros H. injection H as H1 H2.
  now rewrite Hy, IHs.
Qed.

Lemma fixed_stable j : json_compaction j = j -> stable j = true.
Proof.
  induction j as [| | | | | l IH | d IH] using json_ind; try reflexivity.
  - rewrite json_compaction_list. cbn [stable]. intros H.
    destruct l as [|x r]; [reflexivity|].
    revert H. destruct (forallb list_empty (x :: r)); [discriminate|].
    intros H. cbn [negb andb].
    apply (map_fixed_forallb json_compaction stable); [exact IH | congruence].
  - rewrite json_compaction_dict. cbn [stable]. intros H. injection H as H.
    unfold compact_items in H.
    induction IH as [|[k v] r Hv _ IHr]; [reflexivity|].
    cbn [filter snd] in H. cbn [forallb snd].
    destruct (dict_empty v) eqn:Hk; cbn [negb] in H.
    + exfalso. apply (f_equal (@List.length _)) in H.
      rewrite length_map in H. cbn [List.length] in H.
      pose proof (filter_length_le (fun kv => negb (dict_empty (snd kv))) r).
      lia.
    + cbn [map fst snd] in H. injection H as H1 H2.
      simpl in Hv. now rewrite (Hv H1), (IHr H2).
Qed.

Lemma collapse_free_stable j :
  collapse_free j = true -> stable (json_compaction j) = true.
Proof.
  induction j as [| | | | | l IH | d IH] using json_ind; try reflexivity.
  - cbn [collapse_free]. rewrite json_compaction_list. intros H.
    destruct (forallb list_empty l) eqn:He; [reflexivity|].
    cbn [stable]. apply andb_true_intro. split.
    + assert (Hs : forallb list_empty (map json_compaction l) = false).
      { clear IH. induction l as [|x r IHr]; [discriminate|].
        cbn [forallb map] in *. apply andb_prop in H as [Hx Hr].
        apply andb_prop in Hx as [Hk _].
        destruct (list_empty x) eqn:Hx.
        - rewrite (IHr Hr He). apply andb_false_r.
        - now rewrite (kept_stays_kept_list x Hk Hx). }
      destruct (map json_compaction l); [discriminate | now rewrite Hs].
    + clear He. induction IH as [|x r Hx _ IHr]; [reflexivity|].
      cbn [forallb map] in *. apply andb_prop in H as [Hkx Hr].
      apply andb_prop in Hkx as [_ Hc]. now rewrite (Hx Hc), (IHr Hr).
  - cbn [collapse_free]. rewrite json_compaction_dict. intros H.
    cbn [stable]. unfold compact_items.
    induction IH as [|[k v] r Hv _ IHr]; [reflexivity|].
    cbn [forallb snd] in H. apply andb_prop in H as [Hkv Hr].
    apply andb_prop in Hkv as [Hk Hc]. cbn [filter snd].
    destruct (dict_empty v) eqn:He; cbn [negb]; [exact (IHr Hr)|].
    cbn [map forallb fst snd].
    rewrite (kept_stays_kept_dict v Hk He). simpl in Hv.
    now rewrite (Hv Hc), (IHr Hr).
Qed.

(** Idempotence at a document is stability of its compaction. *)
Lemma idempotent_at_iff_stable D :
  json_compaction (json_compaction D) = json_compaction D
  <-> stable (json_compaction D) = true.
Proof. split; [apply fixed_stable | apply stable_fixed]. Qed.

Lemma empty_value_dict_empty v : dict_empty v = empty_value v.
Proof.
  rewrite dict_empty_spec. unfold empty_value, claimed_sentinel.
  destruct v as [| b | z | f | s | l | d]; try reflexivity.
  - now destruct b.
  - cbn. now rewrite !orb_false_r.
  - destruct f; reflexivity.
  - destruct s; reflexivity.
  - destruct l; reflexivity.
  - destruct d; reflexivity.
Qed.

Lemma no_empty_value_kept j : no_empty_value j = true -> dict_empty j = false.
Proof.
  rewrite empty_value_dict_empty.
  destruct j; cbn [no_empty_value]; intros H; apply andb_prop in H as [H _];
    now apply negb_true_iff in H.
Qed.

Lemma no_empty_value_stable j : no_empty_value j = true -> stable j = true.
Proof.
  induction j as [| | | | | l IH | d IH] using json_ind; try reflexivity.
  - cbn [no_empty_value stable]. intros H. apply andb_prop in H as [Hl Hall].
    apply andb_true_intro. split.
    + destruct l as [|x r]; [reflexivity|].
      cbn [forallb] in *. apply andb_prop in Hall as [Hx _].
      apply no_empty_value_kept in Hx.
      destruct (list_empty x) eqn:He; [|reflexivity].
      apply list_empty_dict_empty in He. congruence.
    + clear Hl. induction IH as [|x r Hx _ IHr]; [reflexivity|].
      cbn [forallb] in *. apply andb_prop in Hall as [H1 H2].
      now rewrite (Hx H1), (IHr H2).
  - cbn [no_empty_value stable]. intros H. apply andb_prop in H as [_ Hall].
    induction IH as [|[k v] r Hv _ IHr]; [reflexivity|].
    cbn [forallb snd] in *. apply andb_prop in Hall as [H1 H2].
    rewrite (no_empty_value_kept v H1), (Hv H1), (IHr H2). reflexivity.
Qed.

Lemma forallb_list_empty l :
  forallb list_empty l
  = forallb (fun item => zero_number item || empty_container item || is_none item) l.
Proof.
  induction l as [|x r IH]; [reflexivity|].
  cbn [forallb]. now rewrite list_empty_spec, IH.
Qed.

Lemma distinct_filter (g : string * json -> bool) d :
  distinct (keys d) = true -> distinct (keys (filter g d)) = true.
Proof.
  induction d as [|[k v] r IH]; [reflexivity|].
  cbn [keys map fst distinct filter]. intros H.
  apply andb_prop in H as [Hk Hr]. specialize (IH Hr).
  destruct (g (k, v)); [|exact IH].
  cbn [keys map fst distinct]. fold (keys (filter g r)).
  rewrite IH, andb_true_r. apply negb_true_iff in Hk. apply negb_true_iff.
  clear IH Hr. unfold keys in *.
  induction r as [|[k' v'] r' IHr]; [reflexivity|].
  cbn [map fst existsb filter] in *. apply orb_false_elim in Hk as [Hk1 Hk2].
  destruct (g (k', v')); [|exact (IHr Hk2)].
  cbn [map fst existsb]. now rewrite Hk1, (IHr Hk2).
Qed.

(** The compaction of a document whose dictionaries have each key once
    is such a document again. *)
Lemma compaction_well_formed j :
  well_formed j = true -> well_formed (json_compaction j) = true.
Proof.
  induction j as [| | | | | l IH | d IH] using json_ind; try (intros; assumption).
  - rewrite json_compaction_list. destruct (forallb list_empty l); [reflexivity|].
    cbn [well_formed]. induction IH as [|x r Hx _ IHr]; [reflexivity|].
    cbn [forallb map]. intros H. apply andb_prop in H as [H1 H2].
    now rewrite (Hx H1), (IHr H2).
  - rewrite json_compaction_dict. cbn [well_formed]. intros H.
    apply andb_prop in H as [Hkeys Hall]. apply andb_true_intro. split.
    + unfold compact_items, keys. rewrite map_map. cbn [fst].
      now apply distinct_filter.
    + clear Hkeys. unfold compact_items.
      induction IH as [|[k v] r Hv _ IHr]; [reflexivity|].
      cbn [forallb snd filter] in *. apply andb_prop in Hall as [H1 H2].
      destruct (dict_empty v); cbn [negb]; [exact (IHr H2)|].
      cbn [map forallb fst snd]. now rewrite (Hv H1), (IHr H2).
Qed.

(** Python equality at the sentinels, and the flat example of the
    specification. *)
Example false_equals_zero : py_eq (PInt 0) (PBool false) = true.
Proof. reflexivity. Qed.

Example negative_zero_equals_zero :
  py_eq (PFloat float_zero) (PFloat (S754_zero true)) = true.
Proof. reflexivity. Qed.

Example nan_equals_nothing :
  py_eq (PFloat S754_nan) (PFloat S754_nan) = false
  /\ py_in (PFloat S754_nan) dict_sentinels = false.
Proof. split; reflexivity. Qed.

Example half_equals_half :
  py_eq (PFloat (S754_finite false 1 (-1))) (PFloat (S754_finite false 2 (-2))) = true
  /\ py_eq (PInt 2) (PFloat (S754_finite false 1 1)) = true
  /\ py_eq (PInt 0) (PFloat (S754_finite false 1 (-1))) = false.
Proof. repeat split. Qed.

Example dictionaries_compare_by_key :
  py_eq (PDict [("a", PInt 1); ("b", PList [])])
        (PDict [("b", PList []); ("a", PBool true)]) = true.
Proof. reflexivity. Qed.

Example compaction_flat : json_compaction doc_flat = PDict [("b", PInt 1)].
Proof. reflexivity. Qed.

(** *** C1 *)

(** C1 as stated does not hold: [{"a": {"b": {}}}] compacts to [{"a": {}}],
    and compacting that once more gives [{}]. *)
Lemma compaction_not_idempotent :
  json_compaction doc_nested_empty = PDict [("a", PDict [])]
  /\ json_compaction (json_compaction doc_nested_empty) = PDict []
  /\ json_compaction (json_compaction doc_nested_empty)
     <> json_compaction doc_nested_empty.
Proof. repeat split. intros H. vm_compute in H. discriminate H. Qed.

(** C1 (amended): compacting twice is compacting once on every document in
    which no non-empty dictionary or list below the root compacts to an
    empty one. *)
Theorem compaction_idempotent_without_collapse D :
  collapse_free D = true ->
  json_compaction (json_compaction D) = json_compaction D.
Proof. intros H. apply stable_fixed, collapse_free_stable, H. Qed.

Lemma compaction_idempotent_without_collapse_witness :
  collapse_free doc_partly_empty = true
  /\ json_compaction (json_compaction doc_partly_empty)
     = json_compaction doc_partly_empty.
Proof.
  split; [reflexivity|].
  apply compaction_idempotent_without_collapse. reflexivity.
Defined.

(** *** C2 *)

(** C2 as stated does not hold: the key of [{"a": {"b": {}}}] survives,
    because its value is tested before it is compacted. *)
Lemma mapping_keeps_value_compacting_to_empty :
  json_compaction doc_nested_empty <> PDict []
  /\ json_compaction doc_all_empty_list <> PDict [].
Proof. split; intros H; vm_compute in H; discriminate H. Qed.

(** C2 (amended): a dictionary compacts to its items, in their order, whose
    value before compaction is none of zero (of any numeric type, [False]
    included), [""], an empty list, an empty dictionary and [None]; each
    surviving value is compacted.  [{"a": {"b": {}}}] gives [{"a": {}}] and
    [{"a": [0, 0.0, None]}] gives [{"a": []}]. *)
Theorem mapping_drops_raw_sentinels :
  (forall d,
      json_compaction (PDict d) =
      PDict (map (fun kv => (fst kv, json_compaction (snd kv)))
               (filter (fun kv => negb (zero_number (snd kv)
                                        || empty_string (snd kv)
                                        || empty_container (snd kv)
                                        || is_none (snd kv))) d)))
  /\ (forall v, py_in v dict_sentinels =
                zero_number v || empty_string v || empty_container v || is_none v)
  /\ json_compaction doc_nested_empty = PDict [("a", PDict [])]
  /\ json_compaction doc_all_empty_list = PDict [("a", PList [])].
Proof.
  split; [|split; [exact dict_empty_spec | split; reflexivity]].
  intros d. rewrite json_compaction_dict. unfold compact_items. do 2 f_equal.
  apply filter_ext. intros kv. now rewrite dict_empty_spec.
Qed.

(** *** C3 *)

(** C3 as stated does not hold: in [[False, None]] the element [False] is
    none of the sentinels the claim lists, so the list should survive with
    both positions kept; it compacts to [[]]. *)
Lemma false_element_does_not_keep_sequence :
  forallb claimed_list_sentinel list_false_none = false
  /\ json_compaction (PList list_false_none) = PList []
  /\ json_compaction (PList list_false_none)
     <> PList (map json_compaction list_false_none).
Proof. repeat split. intros H. vm_compute in H. discriminate H. Qed.

(** C3 (amended): the elements of a list are tested as they are before any
    compaction, with [==] against [[0.0, {}, [], None]], which accepts every
    zero number, [False], [{}], [[]] and [None] and nothing else.  A list
    whose elements all pass the test compacts to [[]]; any other list keeps
    every position, each element compacted.  [[0, 0.0, None]] and
    [[False, None]] collapse, [[""]] and [{"a": [0, 5, 0]}] are unchanged. *)
Theorem sequence_scan_then_transform :
  (forall l,
      json_compaction (PList l) =
      if forallb (fun item => zero_number item || empty_container item
                              || is_none item) l
      then PList []
      else PList (map json_compaction l))
  /\ (forall v, py_in v list_sentinels
                = zero_number v || empty_container v || is_none v)
  /\ json_compaction (PList [PInt 0; PFloat float_zero; PNone]) = PList []
  /\ json_compaction (PList list_false_none) = PList []
  /\ json_compaction (PList [PStr ""]) = PList [PStr ""]
  /\ json_compaction doc_mixed_list = doc_mixed_list.
Proof.
  split; [|split; [exact list_empty_spec | repeat split]].
  intros l. rewrite json_compaction_list. now rewrite forallb_list_empty.
Qed.

(** *** C4 *)

(** C4 as stated does not hold: the key whose value is [False] is dropped,
    and a list holding only [False] counts as all empty. *)
Lemma false_is_dropped :
  json_compaction doc_false = PDict []
  /\ json_compaction doc_false <> doc_false
  /\ json_compaction (PList [PBool false]) = PList []
  /\ json_compaction (PList [PBool false]) <> PList [PBool false].
Proof. repeat split; intros H; vm_compute in H; discriminate H. Qed.

(** C4 (amended): [False] equals the sentinel [0] (and [0.0]), so a key
    whose value is [False] is dropped from every dictionary, and an element
    [False] never keeps a list: the list survives only through its other
    elements, [False] then staying in place.  [True] is kept. *)
Theorem false_counts_as_empty :
  py_in (PBool false) dict_sentinels = true
  /\ py_in (PBool false) list_sentinels = true
  /\ (forall d1 k d2,
         json_compaction (PDict (d1 ++ (k, PBool false) :: d2))
         = json_compaction (PDict (d1 ++ d2)))
  /\ (forall l1 l2,
         json_compaction (PList (l1 ++ PBool false :: l2)) =
         if forallb (fun item => py_in item list_sentinels) (l1 ++ l2)
         then PList []
         else PList (map json_compaction l1 ++ PBool false :: map json_compaction l2))
  /\ py_in (PBool true) dict_sentinels = false
  /\ py_in (PBool true) list_sentinels = false.
Proof.
  repeat split; try reflexivity.
  - intros d1 k d2. rewrite !json_compaction_dict. f_equal.
    unfold compact_items. rewrite !filter_app. reflexivity.
  - intros l1 l2. rewrite json_compaction_list.
    fold list_empty. rewrite !forallb_app. cbn [forallb].
    change (list_empty (PBool false)) with true. cbn [andb].
    rewrite map_app. reflexivity.
Qed.

(** *** C5 *)

(** C5 as stated does not hold: [{"active": False, "n": 1}] holds none of
    the sentinels the claim lists, and its compaction drops the key
    [active]. *)
Lemma false_value_breaks_identity :
  claimed_sentinel_free doc_flag = true
  /\ json_compaction doc_flag = PDict [("n", PInt 1)]
  /\ json_compaction doc_flag <> doc_flag.
Proof. repeat split. intros H. vm_compute in H. discriminate H. Qed.

(** C5 (amended): a document in which no value, at any depth and the root
    included, is a zero number, [""], [[]], [{}], [None] or the boolean
    [False] is its own compaction. *)
Theorem compaction_identity_without_empty_values D :
  no_empty_value D = true -> json_compaction D = D.
Proof. intros H. apply stable_fixed, no_empty_value_stable, H. Qed.

Lemma compaction_identity_without_empty_values_witness :
  no_empty_value doc_informative = true
  /\ json_compaction doc_informative = doc_informative.
Proof.
  split; [reflexivity|].
  apply compaction_identity_without_empty_values. reflexivity.
Defined.

(** ** Properties of the factory *)

(** *** C9 *)




(** *** C10 *)

(** C10: with [is_local] true the factory returns a local source built from
    the two local parameters, whatever [is_databricks] is. *)
Theorem is_local_takes_precedence :
  forall (is_databricks : bool) (kwargs : list (string * json)),
    get_spark_environment is_databricks true kwargs
    = Local (LocalSparkEnvironment.__init__
               (kwargs_get kwargs "local_spark_ui_url")
               (kwargs_get kwargs "local_application_id")).
Proof. intros is_databricks kwargs. reflexivity. Qed.

(** ** Properties of the metric sources *)

Ltac run_get_application_id Hget Hstatus Hbody :=
  cbn [get_application_id];
  unfold DatabricksSparkEnvironment.get_application_id,
    DatabricksSparkEnvironment._databricks_api_get,
    NonDatabricksSparkEnvironment.get_application_id,
    LocalSparkEnvironment.get_application_id, bind, get;
  cbv zeta; rewrite Hget; cbv beta iota; rewrite Hstatus; cbn [Z.eqb Pos.eqb];
  unfold response_json; rewrite Hbody; cbn [lift ret truthy].

Lemma bind_inr {A B} (m : M A) (k : A -> M B) s a s' :
  m s = (inr a, s') -> bind m k s = k a s'.
Proof. unfold bind. now intros ->. Qed.

Lemma bind_inl {A B} (m : M A) (k : A -> M B) s e s' :
  m s = (inl e, s') -> bind m k s = (inl e, s').
Proof. unfold bind. now intros ->. Qed.

Lemma raised_bind {A B} (m : M A) (k : A -> M B) s :
  raised (m s) <> None -> raised (bind m k s) <> None.
Proof.
  unfold raised, bind. destruct (m s) as [[e | a] s']; simpl; congruence.
Qed.

Lemma get_answered p url headers s r :
  requests_get p url headers = inr r ->
  get p url headers s
  = (inr r, {| stdout := stdout s; requested := requested s ++ [url] |}).
Proof. unfold get. now intros ->. Qed.

Lemma status_not_200 r : status_code r <> 200 -> (status_code r =? 200) = false.
Proof. apply Z.eqb_neq. Qed.

(** For every class of source, the lookup of an unknown job makes
    [get_stage_details] print the warning and return [None]. *)
Lemma get_stage_details_unknown_job p env job_id st :
  job_unknown p env job_id ->
  get_stage_details p env job_id st
  = (inr PNone,
     {| stdout := stdout st ++ [warning p env job_id];
        requested := requested st ++ [job_url p env job_id] |}).
Proof.
  intros (r & Hget & Hstatus). apply status_not_200 in Hstatus.
  destruct env as [self | self | self]; cbn [job_url] in Hget;
    cbn [get_stage_details];
    unfold DatabricksSparkEnvironment.get_stage_details,
      DatabricksSparkEnvironment.get_specific_job_details,
      NonDatabricksSparkEnvironment.get_stage_details,
      NonDatabricksSparkEnvironment.get_specific_job_details,
      LocalSparkEnvironment.get_stage_details,
      LocalSparkEnvironment.get_specific_job_details, bind, get;
    cbv zeta; rewrite Hget; cbv beta iota; rewrite Hstatus; reflexivity.
Qed.

Lemma for_each_raises {A B} (f : A -> M B) x :
  (forall s, raised (f x s) <> None) ->
  forall l s, In x l -> raised (for_each f l s) <> None.
Proof.
  intros Hx l. induction l as [|y r IH]; intros s Hin; [contradiction|].
  cbn [for_each]. destruct Hin as [-> | Hin].
  - apply raised_bind, Hx.
  - unfold bind at 1. destruct (f y s) as [[e | b] s'] eqn:Hy.
    + unfold raised. simpl. congruence.
    + apply raised_bind, IH, Hin.
Qed.

Lemma for_each_returns {A B} (f : A -> M B) l :
  forall s ys s', for_each f l s = (inr ys, s') ->
                  forall x, In x l -> exists y s1 s2, f x s1 = (inr y, s2) /\ In y ys.
Proof.
  induction l as [|x0 r IH]; intros s ys s' H x Hin; [contradiction|].
  cbn [for_each] in H. unfold bind at 1 in H.
  destruct (f x0 s) as [[e | y0] s0] eqn:H0; [discriminate|].
  unfold bind at 1 in H.
  destruct (for_each f r s0) as [[e | ys0] s1] eqn:H1; [discriminate|].
  unfold ret in H. injection H as <- <-.
  destruct Hin as [-> | Hin].
  - exists y0, s, s0. split; [exact H0 | now left].
  - destruct (IH _ _ _ H1 x Hin) as (y & t1 & t2 & Hy & Hiny).
    exists y, t1, t2. split; [exact Hy | now right].
Qed.

(** X15: A batch holding an unknown job never completes: either a fetch raises,
    or the [None] returned for that job stops the loop that reads the stage
    ids. *)
Lemma unknown_job_aborts_collection p env job_ids job_id st :
  In job_id job_ids -> job_unknown p env job_id ->
  raised (collect p env job_ids st) <> None.
Proof.
  intros Hin Hunknown. unfold collect. unfold bind at 1.
  destruct (for_each (get_stage_details p env) job_ids st)
    as [[e | details] s'] eqn:Hfetch.
  - unfold raised. simpl. congruence.
  - apply raised_bind.
    destruct (for_each_returns _ _ _ _ _ Hfetch job_id Hin)
      as (y & s1 & s2 & Hy & Hiny).
    rewrite (get_stage_details_unknown_job p env job_id s1 Hunknown) in Hy.
    injection Hy as <- _.
    apply for_each_raises with (x := PNone); [|exact Hiny].
    intros s. unfold raised. simpl. congruence.
Qed.

Lemma bind_returns {A B} (m : M A) (k : A -> M B) s b s'' :
  bind m k s = (inr b, s'') ->
  exists a s', m s = (inr a, s') /\ k a s' = (inr b, s'').
Proof.
  unfold bind. destruct (m s) as [[e | a] s']; [discriminate|].
  intros H. now exists a, s'.
Qed.

Lemma for_each_pure {A B} (f : A -> M B) (g : A -> B) (u : A -> string) l :
  (forall x, In x l ->
             forall s, f x s = (inr (g x),
                                {| stdout := stdout s;
                                   requested := requested s ++ [u x] |})) ->
  forall s, for_each f l s
            = (inr (map g l),
               {| stdout := stdout s; requested := requested s ++ map u l |}).
Proof.
  induction l as [|x r IH]; intros Hf s.
  - cbn [for_each map]. rewrite app_nil_r. now destruct s.
  - cbn [for_each map].
    rewrite (bind_inr _ _ _ _ _ (Hf x (or_introl eq_refl) s)).
    rewrite (bind_inr _ _ _ _ _ (IH (fun y Hy => Hf y (or_intror Hy)) _)).
    unfold ret. cbn [stdout requested]. now rewrite <- app_assoc.
Qed.

(** The local source records a failed stage fetch as [None] and goes on to
    the next stage id: every stage of the job is requested, and the result
    has one entry per stage id. *)
Lemma local_stage_failure_recorded p self job_id st r d ids :
  requests_get p (job_url p (Local self) job_id) [] = inr r ->
  status_code r = 200 ->
  body r = Some (PDict d) ->
  lookup "stageIds" d = Some (PList ids) ->
  (forall id, In id ids ->
              fetch_returns p (LocalSparkEnvironment.stage_url p self id)) ->
  LocalSparkEnvironment.get_stage_details p self job_id st
  = (inr (PDict [("job_id", PInt job_id);
                 ("stages", PList (map (stage_result p self) ids))]),
     {| stdout := stdout st;
        requested := requested st
                     ++ job_url p (Local self) job_id
                     :: map (LocalSparkEnvironment.stage_url p self) ids |}).
Proof.
  intros Hget Hstatus Hbody Hids Hstages. cbn [job_url] in *.
  assert (Htruthy : truthy (PDict d) = true) by (destruct d; [discriminate | reflexivity]).
  unfold LocalSparkEnvironment.get_stage_details,
    LocalSparkEnvironment.get_specific_job_details.
  cbv zeta. unfold bind at 1. unfold bind at 1. unfold get at 1.
  rewrite Hget. cbv beta iota. rewrite Hstatus. cbn [Z.eqb Pos.eqb].
  unfold response_json. rewrite Hbody. cbn [lift ret].
  rewrite Htruthy. cbn [negb]. unfold dict_get. rewrite Hids.
  cbn [lift]. unfold bind at 1. cbn [ret]. cbn [iterate lift].
  unfold bind at 1. cbn [ret].
  match goal with
  | |- bind (for_each ?f ids) _ _ = _ =>
      assert (Hloop : forall s,
                 for_each f ids s
                 = (inr (map (stage_result p self) ids),
                    {| stdout := stdout s;
                       requested := requested s
                                    ++ map (LocalSparkEnvironment.stage_url p self) ids |}))
  end.
  { apply for_each_pure. intros id Hin s.
    destruct (Hstages id Hin) as (r' & Hr' & Hparse).
    unfold stage_result, bind, get. rewrite Hr'. cbv beta iota.
    destruct (Z.eqb_spec (status_code r') 200) as [H200 | H200]; [|reflexivity].
    destruct (body r'); [reflexivity|]. now destruct (Hparse H200). }
  rewrite (bind_inr _ _ _ _ _ (Hloop _)).
  unfold ret. cbn [stdout requested]. now rewrite <- app_assoc.
Qed.


(** A standalone source stops at the first stage whose body does not
    parse: the stages after it are not requested. *)
Lemma standalone_stage_failure_stops p self job_id st r d id rest r' :
  requests_get p (job_url p (NonDatabricks self) job_id) [] = inr r ->
  status_code r = 200 ->
  body r = Some (PDict d) ->
  lookup "stageIds" d = Some (PList (id :: rest)) ->
  requests_get p
    (py_format p (NonDatabricksSparkEnvironment.spark_master_url self)
     ++ "/applications/"
     ++ py_format p
          (NonDatabricksSparkEnvironment.NonDatabricksSparkEnvironment_application_id self)
     ++ "/stages/" ++ py_format p id) [] = inr r' ->
  body r' = None ->
  exists url,
    NonDatabricksSparkEnvironment.get_stage_details p self job_id st
    = (inl JSONDecodeError,
       {| stdout := stdout st;
          requested := requested st ++ [job_url p (NonDatabricks self) job_id; url] |}).
Proof.
  intros Hget Hstatus Hbody Hids Hstage Hbad. cbn [job_url] in *.
  assert (Htruthy : truthy (PDict d) = true) by (destruct d; [discriminate | reflexivity]).
  eexists.
  unfold NonDatabricksSparkEnvironment.get_stage_details,
    NonDatabricksSparkEnvironment.get_specific_job_details.
  cbv zeta. unfold bind at 1. unfold bind at 1. unfold get at 1.
  rewrite Hget. cbv beta iota. rewrite Hstatus. cbn [Z.eqb Pos.eqb].
  unfold response_json at 1. rewrite Hbody. cbn [lift ret].
  rewrite Htruthy. cbn [negb]. unfold dict_get. rewrite Hids.
  cbn [lift]. unfold bind at 1. cbn [ret]. cbn [iterate lift].
  unfold bind at 1. cbn [ret]. cbn [for_each].
  unfold bind, get. rewrite Hstage. cbv beta iota.
  unfold response_json. rewrite Hbad. cbn [lift raise stdout requested].
  rewrite <- app_assoc. reflexivity.
Qed.

(** The standalone and the local source return [None], and cache it, when
    the listing of applications is empty. *)
Lemma get_application_id_empty_listing p env st r :
  is_databricks_source env = false ->
  requests_get p (listing_url p env) (listing_headers p env) = inr r ->
  status_code r = 200 ->
  body r = Some (PList []) ->
  get_application_id p env st
  = (inr (cache env PNone, PNone),
     {| stdout := stdout st; requested := requested st ++ [listing_url p env] |}).
Proof.
  intros Hclass Hget Hstatus Hbody.
  destruct env as [self | self | self]; [discriminate | |];
    cbn [listing_url listing_headers] in Hget;
    run_get_application_id Hget Hstatus Hbody; reflexivity.
Qed.

(** X17: On a listing whose entry at index 0 is a dictionary holding [id],
    the standalone and the local source return that id and cache it. *)
Lemma get_application_id_first_entry p env st r d rest id :
  is_databricks_source env = false ->
  requests_get p (listing_url p env) (listing_headers p env) = inr r ->
  status_code r = 200 ->
  body r = Some (PList (PDict d :: rest)) ->
  lookup "id" d = Some id ->
  get_application_id p env st
  = (inr (cache env id, id),
     {| stdout := stdout st; requested := requested st ++ [listing_url p env] |})
  /\ cached_application_id (cache env id) = id.
Proof.
  intros Hclass Hget Hstatus Hbody Hid.
  destruct env as [self | self | self]; [discriminate | |];
    (split; [|reflexivity]);
    cbn [listing_url listing_headers] in Hget;
    run_get_application_id Hget Hstatus Hbody;
    cbn [item0 item lift ret raise]; rewrite Hid; reflexivity.
Qed.

(** The workspace source returns the [job_id] of the entry at index 0 of
    the [jobs] listing, and caches it. *)
Lemma workspace_application_id_first_entry p self st r d j rest id :
  requests_get p (listing_url p (Databricks self))
    (listing_headers p (Databricks self)) = inr r ->
  status_code r = 200 ->
  body r = Some (PDict d) ->
  lookup "jobs" d = Some (PList (PDict j :: rest)) ->
  lookup "job_id" j = Some id ->
  get_application_id p (Databricks self) st
  = (inr (cache (Databricks self) id, id),
     {| stdout := stdout st;
        requested := requested st ++ [listing_url p (Databricks self)] |}).
Proof.
  intros Hget Hstatus Hbody Hjobs Hid.
  assert (Htruthy : truthy (PDict d) = true) by (destruct d; [discriminate | reflexivity]).
  cbn [listing_url listing_headers] in Hget.
  run_get_application_id Hget Hstatus Hbody.
  cbn [truthy] in Htruthy. rewrite Htruthy.
  cbn [item lift ret raise]. rewrite Hjobs.
  cbn [item0 item lift ret raise]. rewrite Hid. reflexivity.
Qed.

(** On an empty [jobs] listing it raises [IndexError]: the test [if jobs]
    looks at the whole answer, which is not empty. *)
Lemma workspace_application_id_empty_listing p self st r d :
  requests_get p (listing_url p (Databricks self))
    (listing_headers p (Databricks self)) = inr r ->
  status_code r = 200 ->
  body r = Some (PDict d) ->
  lookup "jobs" d = Some (PList []) ->
  get_application_id p (Databricks self) st
  = (inl IndexError,
     {| stdout := stdout st;
        requested := requested st ++ [listing_url p (Databricks self)] |}).
Proof.
  intros Hget Hstatus Hbody Hjobs.
  assert (Htruthy : truthy (PDict d) = true) by (destruct d; [discriminate | reflexivity]).
  cbn [listing_url listing_headers] in Hget.
  run_get_application_id Hget Hstatus Hbody.
  cbn [truthy] in Htruthy. rewrite Htruthy.
  cbn [item lift ret raise]. rewrite Hjobs. reflexivity.
Qed.

(** *** C6 *)

(** C6: [get_stage_details] returns [None] for the unknown job 7 and the
    comprehension goes on to job 3, but the run then ends in
    [AttributeError], at [single_stage_details.get("stages")] on that
    [None], before any task is fetched; [main], whose job 22 is unknown to
    the backend, ends the same way. *)
Theorem unknown_job_aborts_the_run :
  get_stage_details backend_job_3_only (Local local_ui) 7 start
  = (inr PNone,
     {| stdout := ["Job ID 7 not found in application local-1728540004669."];
        requested := [app_url ++ "/jobs/7"] |})
  /\ collect backend_job_3_only (Local local_ui) [7; 3] start
     = (inl AttributeError,
        {| stdout := ["Job ID 7 not found in application local-1728540004669."];
           requested := [app_url ++ "/jobs/7"; app_url ++ "/jobs/3";
                         app_url ++ "/stages/5"] |})
  /\ main backend_without_job_22 start
     = (inl AttributeError,
        {| stdout := ["[22]";
                      "Job ID 22 not found in application local-1728540004669."];
           requested := [app_url ++ "/jobs"; app_url ++ "/jobs/22";
                         app_url ++ "/jobs/22"] |}).
Proof. repeat split; vm_compute; reflexivity. Qed.

(** *** C7 *)

(** C7: with the fetch of stage 5 failing, the standalone source raises
    [JSONDecodeError] and never requests stage 6, where the local source
    records [None] for stage 5 and still fetches stage 6. *)
Theorem stage_failure_aborts_standalone_source :
  get_stage_details backend_stage_5_failing (NonDatabricks standalone) 22 start
  = (inl JSONDecodeError,
     {| stdout := [];
        requested := [app_url ++ "/jobs/22"; app_url ++ "/stages/5"] |})
  /\ get_stage_details backend_stage_5_failing (Local local_ui) 22 start
     = (inr (PDict [("job_id", PInt 22); ("stages", PList [PNone; stage_6])]),
        {| stdout := [];
           requested := [app_url ++ "/jobs/22"; app_url ++ "/stages/5";
                         app_url ++ "/stages/6"] |}).
Proof. split; vm_compute; reflexivity. Qed.

(** *** C8 *)

(** C8: on the empty job listing [{"jobs": []}] the workspace source raises
    [IndexError] instead of returning [None], where the local source returns
    and caches [None] on the empty application listing [[]]. *)
Theorem empty_job_listing_raises_in_workspace_source :
  get_application_id backend_no_jobs (Databricks workspace) start
  = (inl IndexError,
     {| stdout := []; requested := ["https://adb.example.net/api/2.0/jobs/list"] |})
  /\ get_application_id backend_no_jobs (Local local_ui) start
     = (inr (cache (Local local_ui) PNone, PNone),
        {| stdout := [];
           requested := ["http://localhost:4040/api/v1/applications"] |}).
Proof. split; vm_compute; reflexivity. Qed.

(** ** Further properties of the compaction *)

Lemma dict_empty_falsy v : dict_empty v = negb (truthy v).
Proof.
  rewrite dict_empty_spec.
  destruct v as [| b | z | f | s | l | d];
    cbn [zero_number empty_string empty_container is_none truthy orb negb];
    rewrite ?orb_false_r, ?negb_involutive; try reflexivity.
  - destruct f; reflexivity.
  - destruct s; reflexivity.
  - destruct l; reflexivity.
  - destruct d; reflexivity.
Qed.

(** X5: The test of the dictionary comprehension is falsiness: a value is dropped
    exactly when [bool(v)] is [False]. *)
Theorem mapping_drops_exactly_the_falsy_values :
  forall v, py_in v dict_sentinels = negb (truthy v).
Proof. exact dict_empty_falsy. Qed.

(** X6: The two sentinel lists differ by the empty string only: a value counts
    as empty for a dictionary exactly when it counts as empty for a list or
    is [""]. *)
Theorem sentinel_lists_differ_by_empty_string :
  forall v, py_in v dict_sentinels
            = py_in v list_sentinels || empty_string v.
Proof.
  intros v. fold (dict_empty v) (list_empty v).
  rewrite dict_empty_spec, list_empty_spec.
  destruct (zero_number v), (empty_container v), (is_none v), (empty_string v);
    reflexivity.
Qed.

(** X2: A document is its own compaction exactly when no dictionary in it has a
    falsy value and every list in it that is not empty has an element
    outside [[0.0, {}, [], None]]. *)
Theorem compaction_fixed_points :
  forall D, json_compaction D = D <-> stable D = true.
Proof. intros D. split; [apply fixed_stable | apply stable_fixed]. Qed.

Lemma size_positive j : (1 <= size j)%nat.
Proof. destruct j; simpl; lia. Qed.

Lemma list_sum_cons a l : list_sum (a :: l) = (a + list_sum l)%nat.
Proof. reflexivity. Qed.

Lemma list_sum_map_le {A} (f g : A -> nat) l :
  Forall (fun x => (f x <= g x)%nat) l ->
  (list_sum (map f l) <= list_sum (map g l))%nat.
Proof. induction 1; simpl; lia. Qed.

Lemma list_sum_filter_le {A} (keep : A -> bool) (g : A -> nat) l :
  (list_sum (map g (filter keep l)) <= list_sum (map g l))%nat.
Proof.
  induction l as [|x r IH]; simpl; [lia|]. destruct (keep x); simpl; lia.
Qed.

Lemma size_compaction_le j : (size (json_compaction j) <= size j)%nat.
Proof.
  induction j as [| | | | | l IH | d IH] using json_ind; try (simpl; lia).
  - rewrite json_compaction_list. destruct (forallb list_empty l).
    + simpl. lia.
    + cbn [size]. rewrite map_map. apply le_n_S.
      now apply list_sum_map_le.
  - rewrite json_compaction_dict. unfold compact_items. cbn [size].
    rewrite map_map. cbn [snd]. apply le_n_S.
    etransitivity;
      [|apply (list_sum_filter_le
                 (fun kv => negb (dict_empty (snd kv)))
                 (fun kv => S (size (snd kv))))].
    apply list_sum_map_le. apply Forall_forall. intros kv Hin.
    apply filter_In in Hin as [Hin _].
    rewrite Forall_forall in IH. specialize (IH kv Hin). simpl in IH. lia.
Qed.

(** X3: The compaction never enlarges a document. *)
Theorem compaction_never_grows :
  forall D, (size (json_compaction D) <= size D)%nat.
Proof. exact size_compaction_le. Qed.

Lemma map_changes_or_shrinks (f : json -> json) l :
  Forall (fun x => f x = x \/ (size (f x) < size x)%nat) l ->
  map f l = l \/ (list_sum (map size (map f l)) < list_sum (map size l))%nat.
Proof.
  induction 1 as [|x r Hx Hr IH]; [now left|].
  cbn [map]. rewrite !list_sum_cons.
  assert (Hle : (list_sum (map size (map f r)) <= list_sum (map size r))%nat).
  { rewrite map_map. apply list_sum_map_le.
    apply Forall_forall. intros y Hy. rewrite Forall_forall in Hr.
    destruct (Hr y Hy) as [-> | Hlt]; lia. }
  destruct Hx as [Hx | Hx], IH as [IH | IH].
  - left. now rewrite Hx, IH.
  - right. rewrite Hx. lia.
  - right. rewrite IH in *. lia.
  - right. lia.
Qed.

Lemma items_change_or_shrink d :
  Forall (fun kv => json_compaction (snd kv) = snd kv
                    \/ (size (json_compaction (snd kv)) < size (snd kv))%nat) d ->
  compact_items d = d
  \/ (list_sum (map (fun kv => S (size (snd kv))) (compact_items d))
      < list_sum (map (fun kv => S (size (snd kv))) d))%nat.
Proof.
  unfold compact_items. induction 1 as [|[k v] r Hv Hr IH]; [now left|].
  cbn [filter snd].
  assert (Hle : (list_sum
                   (map (fun kv => S (size (snd kv)))
                      (map (fun kv => (fst kv, json_compaction (snd kv)))
                         (filter (fun kv => negb (dict_empty (snd kv))) r)))
                 <= list_sum (map (fun kv => S (size (snd kv))) r))%nat).
  { rewrite map_map. cbn [snd].
    etransitivity;
      [|apply (list_sum_filter_le
                 (fun kv => negb (dict_empty (snd kv)))
                 (fun kv => S (size (snd kv))))].
    apply list_sum_map_le. apply Forall_forall. intros kv _.
    pose proof (size_compaction_le (snd kv)). lia. }
  destruct (dict_empty v); cbn [negb].
  - right. cbn [map snd]. rewrite ?list_sum_cons. lia.
  - cbn [map fst snd]. rewrite !list_sum_cons. simpl in Hv.
    destruct Hv as [Hv | Hv], IH as [IH | IH].
    + left. now rewrite Hv, IH.
    + right. rewrite Hv. lia.
    + right. lia.
    + right. lia.
Qed.

Lemma compaction_changes_or_shrinks j :
  json_compaction j = j \/ (size (json_compaction j) < size j)%nat.
Proof.
  induction j as [| | | | | l IH | d IH] using json_ind; try (now left).
  - rewrite json_compaction_list. destruct l as [|x r]; [now left|].
    destruct (forallb list_empty (x :: r)).
    + right. pose proof (size_positive x). simpl. lia.
    + destruct (map_changes_or_shrinks json_compaction _ IH) as [H | H].
      * left. now rewrite H.
      * right. cbn [size]. lia.
  - rewrite json_compaction_dict.
    destruct (items_change_or_shrink d IH) as [H | H].
    + left. now rewrite H.
    + right. cbn [size]. lia.
Qed.

Lemma iterated_compaction_fixed n :
  forall j, (size j <= n)%nat ->
            json_compaction (Nat.iter n json_compaction j)
            = Nat.iter n json_compaction j.
Proof.
  induction n as [|n IH]; intros j Hsize.
  - pose proof (size_positive j). lia.
  - destruct (compaction_changes_or_shrinks j) as [Hfix | Hlt].
    + assert (Hiter : forall m, Nat.iter m json_compaction j = j).
      { induction m as [|m IHm]; [reflexivity|].
        now rewrite Nat.iter_succ, IHm. }
      now rewrite Hiter.
    + rewrite Nat.iter_succ, <- Nat.iter_swap. apply IH. lia.
Qed.

(** X1: Compacting a document as many times as it has nodes gives a document
    that further compaction leaves unchanged. *)
Theorem repeated_compaction_settles :
  forall D,
    json_compaction (Nat.iter (size D) json_compaction D)
    = Nat.iter (size D) json_compaction D.
Proof. intros D. now apply iterated_compaction_fixed. Qed.

Lemma container_truthy_or_empty v :
  is_container v = true -> truthy v || empty_container v = true.
Proof. destruct v as [| | | | | l | d]; try discriminate; intros _;
         [destruct l | destruct d]; reflexivity. Qed.

Lemma compaction_mapping_values j :
  mapping_values_informative (json_compaction j) = true.
Proof.
  induction j as [| | | | | l IH | d IH] using json_ind; try reflexivity.
  - rewrite json_compaction_list. destruct (forallb list_empty l); [reflexivity|].
    cbn [mapping_values_informative].
    induction IH as [|x r Hx _ IHr]; [reflexivity|].
    cbn [map forallb]. now rewrite Hx, IHr.
  - rewrite json_compaction_dict. cbn [mapping_values_informative].
    unfold compact_items.
    induction IH as [|[k v] r Hv _ IHr]; [reflexivity|].
    cbn [filter snd]. destruct (dict_empty v) eqn:He; cbn [negb]; [exact IHr|].
    cbn [map forallb fst snd]. simpl in Hv. rewrite Hv, IHr.
    destruct (is_container v) eqn:Hc.
    + rewrite container_truthy_or_empty
        by now apply container_compacts_to_container.
      reflexivity.
    + rewrite (leaf_unchanged v Hc). rewrite dict_empty_falsy in He.
      apply negb_false_iff in He. now rewrite He.
Qed.

(** X4: In a compacted document no dictionary, at any depth, has a value that
    is [None], a zero, [False] or [""]: the only falsy values left under a
    key are empty lists and empty dictionaries. *)
Theorem compaction_leaves_no_falsy_scalar_under_a_key :
  forall D, mapping_values_informative (json_compaction D) = true.
Proof. exact compaction_mapping_values. Qed.

(** X7: The compaction of a document whose dictionaries have each key once
    has each key once in every dictionary. *)
Theorem compaction_keeps_keys_distinct D :
  well_formed D = true -> well_formed (json_compaction D) = true.
Proof. apply compaction_well_formed. Qed.

Lemma compaction_keeps_keys_distinct_witness :
  well_formed doc_partly_empty = true
  /\ well_formed (json_compaction doc_partly_empty) = true.
Proof.
  split; [reflexivity|].
  apply compaction_keeps_keys_distinct. reflexivity.
Defined.

(** ** Further properties of the metric sources *)

Lemma for_each_pointwise {A B} (f : A -> M B) l :
  forall s ys s',
    for_each f l s = (inr ys, s') ->
    Forall2 (fun x y => exists s1 s2, f x s1 = (inr y, s2)) l ys.
Proof.
  induction l as [|x r IH]; intros s ys s' H.
  - injection H as <- _. constructor.
  - cbn [for_each] in H.
    apply bind_returns in H as (y & s1 & Hy & H).
    apply bind_returns in H as (ys' & s2 & Hys & H).
    injection H as <- _. constructor; [now exists s, s1 | exact (IH _ _ _ Hys)].
Qed.

Lemma for_each_length {A B} (f : A -> M B) l s ys s' :
  for_each f l s = (inr ys, s') -> List.length ys = List.length l.
Proof.
  intros H. apply for_each_pointwise in H.
  symmetry. exact (Forall2_length H).
Qed.

Ltac returns_step H :=
  let a := fresh "a" in
  let s := fresh "s" in
  let Ha := fresh "Ha" in
  apply bind_returns in H as (a & s & Ha & H).

Lemma get_stage_details_returns p env job_id st v st' :
  get_stage_details p env job_id st = (inr v, st') ->
  v = PNone
  \/ exists stages, v = PDict [("job_id", PInt job_id); ("stages", PList stages)].
Proof.
  destruct env as [self | self | self]; cbn [get_stage_details];
    unfold DatabricksSparkEnvironment.get_stage_details,
      NonDatabricksSparkEnvironment.get_stage_details,
      LocalSparkEnvironment.get_stage_details;
    intros H; returns_step H;
    (destruct (negb (truthy a));
     [ returns_step H; injection H as <- _; now left
     | do 3 returns_step H; injection H as <- _; right; eauto ]).
Qed.

(** X8: Whatever the class of the source and the answers of the backend,
    [get_stage_details], when it returns, returns [None] or a dictionary
    with exactly the keys [job_id], holding the job id asked for, and
    [stages], holding a list. *)
Theorem get_stage_details_result_shape p env job_id st v st' :
  get_stage_details p env job_id st = (inr v, st') ->
  v = PNone
  \/ exists stages, v = PDict [("job_id", PInt job_id); ("stages", PList stages)].
Proof. apply get_stage_details_returns. Qed.

Lemma get_stage_details_result_shape_witness :
  get_stage_details backend_stage_5_failing (Local local_ui) 22 start
  = (inr (PDict [("job_id", PInt 22); ("stages", PList [PNone; stage_6])]),
     {| stdout := [];
        requested := [app_url ++ "/jobs/22"; app_url ++ "/stages/5";
                      app_url ++ "/stages/6"] |})
  /\ (PDict [("job_id", PInt 22); ("stages", PList [PNone; stage_6])] = PNone
      \/ exists stages,
          PDict [("job_id", PInt 22); ("stages", PList [PNone; stage_6])]
          = PDict [("job_id", PInt 22); ("stages", PList stages)]).
Proof.
  split; [reflexivity|].
  apply (get_stage_details_result_shape backend_stage_5_failing (Local local_ui)
           22 start _
           {| stdout := [];
              requested := [app_url ++ "/jobs/22"; app_url ++ "/stages/5";
                            app_url ++ "/stages/6"] |}).
  reflexivity.
Defined.

Ltac run_job_lookup Hget Hstatus Hbody :=
  cbn [get_stage_details];
  unfold DatabricksSparkEnvironment.get_stage_details,
    DatabricksSparkEnvironment.get_specific_job_details,
    NonDatabricksSparkEnvironment.get_stage_details,
    NonDatabricksSparkEnvironment.get_specific_job_details,
    LocalSparkEnvironment.get_stage_details,
    LocalSparkEnvironment.get_specific_job_details;
  cbv zeta; unfold bind at 1; unfold bind at 1; unfold get at 1;
  rewrite Hget; cbv beta iota; rewrite Hstatus; cbn [Z.eqb Pos.eqb];
  unfold response_json at 1; rewrite Hbody; cbn [lift ret].

(** X9: A job that the backend knows but describes by a falsy document, such as
    [{}], is reported as not found: the warning is printed and [None]
    returned, for every class of source. *)
Theorem falsy_job_details_count_as_not_found p env job_id st r details :
  requests_get p (job_url p env job_id) [] = inr r ->
  status_code r = 200 ->
  body r = Some details ->
  truthy details = false ->
  get_stage_details p env job_id st
  = (inr PNone,
     {| stdout := stdout st ++ [warning p env job_id];
        requested := requested st ++ [job_url p env job_id] |}).
Proof.
  intros Hget Hstatus Hbody Hfalsy.
  destruct env as [self | self | self]; cbn [job_url] in Hget;
    run_job_lookup Hget Hstatus Hbody; rewrite Hfalsy; reflexivity.
Qed.

(** X10: A job described without the key [stageIds] has no stage: the result
    holds an empty list of stages and only the job was requested, for every
    class of source. *)
Theorem job_without_stage_ids_has_no_stage p env job_id st r d :
  requests_get p (job_url p env job_id) [] = inr r ->
  status_code r = 200 ->
  body r = Some (PDict d) ->
  d <> [] ->
  lookup "stageIds" d = None ->
  get_stage_details p env job_id st
  = (inr (PDict [("job_id", PInt job_id); ("stages", PList [])]),
     {| stdout := stdout st;
        requested := requested st ++ [job_url p env job_id] |}).
Proof.
  intros Hget Hstatus Hbody Hd Hmissing.
  assert (Htruthy : truthy (PDict d) = true) by (destruct d; [congruence | reflexivity]).
  destruct env as [self | self | self]; cbn [job_url] in Hget;
    run_job_lookup Hget Hstatus Hbody; rewrite Htruthy; cbn [negb];
    unfold dict_get; rewrite Hmissing; reflexivity.
Qed.

Lemma falsy_job_details_count_as_not_found_witness :
  get_stage_details backend_odd_jobs (NonDatabricks standalone) 4 start
  = (inr PNone,
     {| stdout := ["Job ID 4 not found in application local-1728540004669."];
        requested := [app_url ++ "/jobs/4"] |}).
Proof.
  apply (falsy_job_details_count_as_not_found backend_odd_jobs
           (NonDatabricks standalone) 4 start (ok (PDict [])) (PDict []));
    reflexivity.
Defined.

Lemma job_without_stage_ids_has_no_stage_witness :
  get_stage_details backend_odd_jobs (Local local_ui) 8 start
  = (inr (PDict [("job_id", PInt 8); ("stages", PList [])]),
     {| stdout := []; requested := [app_url ++ "/jobs/8"] |}).
Proof.
  apply (job_without_stage_ids_has_no_stage backend_odd_jobs
           (Local local_ui) 8 start
           (ok (PDict [("jobId", PInt 8)])) [("jobId", PInt 8)]);
    try reflexivity.
  discriminate.
Defined.

(** *** The collection of [main] *)

Lemma Forall2_combine {A B C} (P : A -> B -> Prop) (Q : B -> C -> Prop)
      (R : A -> B -> Prop) l ys zs :
  (forall x y z, P x y -> Q y z -> R x y) ->
  Forall2 P l ys -> Forall2 Q ys zs -> Forall2 R l ys.
Proof.
  intros HR HP. revert zs. induction HP as [|x y l ys Hxy _ IH]; intros zs HQ.
  - constructor.
  - inversion HQ as [|y' z ys' zs' Hyz Hrest]; subst.
    constructor; [exact (HR _ _ _ Hxy Hyz) | exact (IH _ Hrest)].
Qed.

Lemma length_concat_pointwise {A B} (g : A -> list B) l (ys : list (list B)) :
  Forall2 (fun x y => List.length y = List.length (g x)) l ys ->
  List.length (List.concat ys) = List.length (List.concat (map g l)).
Proof.
  induction 1 as [|x y l ys Hxy _ IH]; [reflexivity|].
  cbn [map List.concat]. rewrite !length_app. now rewrite Hxy, IH.
Qed.

(** The loop that reads the stage ids stops on a [None] entry. *)
Lemma stage_id_loop_rejects_none s :
  raised
    ((stages <- lift (dict_get PNone "stages" PNone) ;;
      each <- lift (iterate stages) ;;
      for_each (stage_field "stageId") each) s) <> None.
Proof. unfold raised. simpl. congruence. Qed.

Lemma collect_entries p env job_ids st details tasks st' :
  collect p env job_ids st = (inr (details, tasks), st') ->
  Forall2 (fun job_id entry =>
             exists stages,
               entry = PDict [("job_id", PInt job_id); ("stages", PList stages)])
          job_ids details.
Proof.
  unfold collect. intros H.
  apply bind_returns in H as (details' & s1 & Hfetch & H).
  apply bind_returns in H as (stage_ids & s2 & Hids & H).
  apply bind_returns in H as (pairs & s3 & _ & H).
  apply bind_returns in H as (tasks' & s4 & _ & H).
  injection H as <- <- _.
  apply for_each_pointwise in Hfetch. apply for_each_pointwise in Hids.
  refine (Forall2_combine _ _ _ _ _ _ _ Hfetch Hids).
  intros job_id entry ids (t1 & t2 & Hentry) (u1 & u2 & Hloop).
  destruct (get_stage_details_returns _ _ _ _ _ _ Hentry) as [-> | Hshape];
    [|exact Hshape].
  exfalso. apply (stage_id_loop_rejects_none u1).
  unfold raised. cbv beta in Hloop. now rewrite Hloop.
Qed.

(** X11: When the collection returns, the stage details are in the order of the
    job ids asked for: the entry at each position is a dictionary
    [{"job_id": ..., "stages": [...]}] carrying the job id at that
    position. *)
Theorem stage_details_follow_job_order p env job_ids st details tasks st' :
  collect p env job_ids st = (inr (details, tasks), st') ->
  Forall2 (fun job_id entry =>
             exists stages,
               entry = PDict [("job_id", PInt job_id); ("stages", PList stages)])
          job_ids details.
Proof. apply collect_entries. Qed.

Lemma pair_loop_length s1 job_id stages y s2 :
  (stages' <- lift (dict_get (PDict [("job_id", PInt job_id);
                                     ("stages", PList stages)])
                      "stages" PNone) ;;
   each <- lift (iterate stages') ;;
   for_each (fun stage =>
               stageId <- stage_field "stageId" stage ;;
               attemptId <- stage_field "attemptId" stage ;;
               ret (PDict [("stageId", stageId); ("attemptId", attemptId)]))
            each) s1 = (inr y, s2) ->
  List.length y = List.length stages.
Proof.
  intros H. apply bind_returns in H as (a & t1 & Ha & H).
  injection Ha as <- <-.
  apply bind_returns in H as (each & t2 & Heach & H).
  injection Heach as <- <-.
  exact (for_each_length _ _ _ _ _ H).
Qed.

Lemma collect_task_count p env job_ids st details tasks st' :
  collect p env job_ids st = (inr (details, tasks), st') ->
  List.length tasks = List.length (List.concat (map stages_of details)).
Proof.
  intros Hrun. pose proof (collect_entries _ _ _ _ _ _ _ Hrun) as Hshape.
  unfold collect in Hrun.
  apply bind_returns in Hrun as (details' & s1 & _ & H).
  apply bind_returns in H as (stage_ids & s2 & _ & H).
  apply bind_returns in H as (pairs & s3 & Hpairs & H).
  apply bind_returns in H as (tasks' & s4 & Htasks & H).
  injection H as <- <- _.
  rewrite (for_each_length _ _ _ _ _ Htasks).
  apply length_concat_pointwise.
  apply for_each_pointwise in Hpairs.
  assert (Hall : Forall (fun entry =>
                           exists job_id stages,
                             entry = PDict [("job_id", PInt job_id);
                                            ("stages", PList stages)]) details').
  { clear - Hshape. induction Hshape as [|j e js es (stages & ->) _ IH];
      constructor; eauto. }
  clear - Hpairs Hall.
  induction Hpairs as [|entry y es ys (t1 & t2 & Hy) _ IH]; constructor.
  - inversion Hall as [|? ? (job_id & stages & ->) _]; subst.
    cbv beta in Hy. rewrite (pair_loop_length _ _ _ _ _ Hy). reflexivity.
  - apply IH. now inversion Hall.
Qed.

(** X12: When the collection returns, it has fetched exactly one task summary
    per recorded stage, all jobs together; in particular jobs without
    stages contribute none. *)
Theorem one_task_summary_per_stage p env job_ids st details tasks st' :
  collect p env job_ids st = (inr (details, tasks), st') ->
  List.length tasks = List.length (List.concat (map stages_of details)).
Proof. apply collect_task_count. Qed.

Lemma collect_job_3 :
  collect backend_job_3_only (Local local_ui) [3] start
  = (inr (job_3_stage_details, job_3_task_details), job_3_final).
Proof. reflexivity. Qed.

Lemma stage_details_follow_job_order_witness :
  collect backend_jobs_7_and_3 (Local local_ui) [7; 3] start
  = (inr (jobs_7_and_3_stage_details, jobs_7_and_3_task_details),
     jobs_7_and_3_final)
  /\ Forall2 (fun job_id entry =>
                exists stages,
                  entry = PDict [("job_id", PInt job_id);
                                 ("stages", PList stages)])
             [7; 3] jobs_7_and_3_stage_details.
Proof.
  split; [reflexivity|].
  apply (stage_details_follow_job_order backend_jobs_7_and_3 (Local local_ui)
           [7; 3] start jobs_7_and_3_stage_details jobs_7_and_3_task_details
           jobs_7_and_3_final).
  reflexivity.
Defined.

Lemma one_task_summary_per_stage_witness :
  List.length job_3_task_details
  = List.length (List.concat (map stages_of job_3_stage_details)).
Proof.
  apply (one_task_summary_per_stage backend_job_3_only (Local local_ui)
           [3] start job_3_stage_details job_3_task_details job_3_final).
  reflexivity.
Defined.

(** The loop that reads the stage ids stops on a stage recorded as [None]. *)
Lemma stage_id_loop_rejects_none_stage job_id stages s :
  In PNone stages ->
  raised
    ((stages' <- lift (dict_get (PDict [("job_id", PInt job_id);
                                        ("stages", PList stages)])
                         "stages" PNone) ;;
      each <- lift (iterate stages') ;;
      for_each (stage_field "stageId") each) s) <> None.
Proof.
  intros Hin. cbn [dict_get lookup String.eqb Ascii.eqb Bool.eqb lift].
  unfold bind at 1. cbn [ret]. cbn [iterate lift]. unfold bind at 1. cbn [ret].
  apply for_each_raises with (x := PNone); [|exact Hin].
  intros t. unfold raised. simpl. congruence.
Qed.

(** X13: The [None] that the local source records for a stage whose fetch fails
    cannot be read by [main]: a batch holding a job with such a stage never
    completes. *)
Theorem failed_stage_aborts_collection p self job_ids job_id st r d ids id r' :
  In job_id job_ids ->
  requests_get p (job_url p (Local self) job_id) [] = inr r ->
  status_code r = 200 ->
  body r = Some (PDict d) ->
  lookup "stageIds" d = Some (PList ids) ->
  (forall id', In id' ids ->
               fetch_returns p (LocalSparkEnvironment.stage_url p self id')) ->
  In id ids ->
  requests_get p (LocalSparkEnvironment.stage_url p self id) [] = inr r' ->
  status_code r' <> 200 ->
  raised (collect p (Local self) job_ids st) <> None.
Proof.
  intros Hjob Hget Hstatus Hbody Hids Hfetch Hid Hstage Hfail.
  unfold collect. unfold bind at 1.
  destruct (for_each (get_stage_details p (Local self)) job_ids st)
    as [[e | details] s'] eqn:Hrun.
  - unfold raised. simpl. congruence.
  - apply raised_bind.
    destruct (for_each_returns _ _ _ _ _ Hrun job_id Hjob)
      as (entry & s1 & s2 & Hentry & Hin).
    cbn [get_stage_details] in Hentry.
    rewrite (local_stage_failure_recorded p self job_id s1 r d ids
               Hget Hstatus Hbody Hids Hfetch) in Hentry.
    injection Hentry as <- _.
    apply for_each_raises
      with (x := PDict [("job_id", PInt job_id);
                        ("stages", PList (map (stage_result p self) ids))]);
      [|exact Hin].
    intros t. apply stage_id_loop_rejects_none_stage.
    apply in_map_iff. exists id. split; [|exact Hid].
    unfold stage_result. rewrite Hstage.
    now rewrite (status_not_200 _ Hfail).
Qed.

Lemma failed_stage_aborts_collection_witness :
  raised (collect backend_stage_5_failing (Local local_ui) [22] start) <> None.
Proof.
  apply (failed_stage_aborts_collection backend_stage_5_failing local_ui
           [22] 22 start
           (ok (PDict [("jobId", PInt 22); ("stageIds", PList [PInt 5; PInt 6])]))
           [("jobId", PInt 22); ("stageIds", PList [PInt 5; PInt 6])]
           [PInt 5; PInt 6] (PInt 5) not_found);
    try reflexivity.
  - left. reflexivity.
  - intros id' [<- | [<- | []]].
    + exists not_found. split; [reflexivity | discriminate].
    + exists (ok stage_6). split; [reflexivity | discriminate].
  - left. reflexivity.
  - discriminate.
Defined.

(** X14: Only the local class takes the keyword [stage_attempt_id]: with a
    workspace or a standalone source the collection returns only when no
    stage at all was recorded, and then holds no task summary. *)
Theorem collection_needs_the_local_source p env job_ids st details tasks st' :
  is_local_source env = false ->
  collect p env job_ids st = (inr (details, tasks), st') ->
  tasks = [] /\ List.concat (map stages_of details) = [].
Proof.
  intros Hclass Hrun.
  pose proof (collect_task_count _ _ _ _ _ _ _ Hrun) as Hcount.
  assert (Htasks : tasks = []).
  { unfold collect in Hrun.
    apply bind_returns in Hrun as (details' & s1 & _ & H).
    apply bind_returns in H as (stage_ids & s2 & _ & H).
    apply bind_returns in H as (pairs & s3 & _ & H).
    apply bind_returns in H as (tasks' & s4 & Htasks & H).
    injection H as _ <- _.
    apply for_each_pointwise in Htasks.
    destruct Htasks as [|x y xs ys (t1 & t2 & Hx) _]; [reflexivity|].
    exfalso. cbv beta in Hx.
    apply bind_returns in Hx as (a & u1 & _ & Hx).
    apply bind_returns in Hx as (b & u2 & _ & Hx).
    destruct env; [discriminate Hx | discriminate Hx | discriminate Hclass]. }
  split; [exact Htasks|].
  rewrite Htasks in Hcount. symmetry in Hcount.
  now apply length_zero_iff_nil in Hcount.
Qed.

Lemma collection_needs_the_local_source_witness :
  collect backend_odd_jobs (NonDatabricks standalone) [8] start
  = (inr ([PDict [("job_id", PInt 8); ("stages", PList [])]], []),
     {| stdout := []; requested := [app_url ++ "/jobs/8"] |})
  /\ (@nil json = []
      /\ List.concat
           (map stages_of [PDict [("job_id", PInt 8); ("stages", PList [])]])
         = []).
Proof.
  split; [reflexivity|].
  apply (collection_needs_the_local_source backend_odd_jobs
           (NonDatabricks standalone) [8] start
           [PDict [("job_id", PInt 8); ("stages", PList [])]] []
           {| stdout := []; requested := [app_url ++ "/jobs/8"] |});
    reflexivity.
Defined.

(** *** Resolving the application id *)

(** X18: On a status other than 200 the standalone and the local source return
    the id they hold, unchanged, where the workspace source raises an
    exception naming the status. *)
Theorem get_application_id_on_failure_status p env st r :
  requests_get p (listing_url p env) (listing_headers p env) = inr r ->
  status_code r <> 200 ->
  get_application_id p env st
  = (if is_databricks_source env
     then inl (Exception_ ("Failed to fetch data from Databricks. Status: "
                             ++ string_of_Z (status_code r)))
     else inr (env, cached_application_id env),
     {| stdout := stdout st; requested := requested st ++ [listing_url p env] |}).
Proof.
  intros Hget Hstatus. apply status_not_200 in Hstatus.
  destruct env as [self | self | self];
    cbn [listing_url listing_headers] in Hget;
    cbn [get_application_id];
    unfold DatabricksSparkEnvironment.get_application_id,
      DatabricksSparkEnvironment._databricks_api_get,
      NonDatabricksSparkEnvironment.get_application_id,
      LocalSparkEnvironment.get_application_id, bind, get;
    cbv zeta; rewrite Hget; cbv beta iota; rewrite Hstatus; reflexivity.
Qed.

Lemma get_application_id_on_failure_status_witness :
  get_application_id (backend []) (Local local_ui) start
  = (inr (Local local_ui, PNone),
     {| stdout := [];
        requested := ["http://localhost:4040/api/v1/applications"] |}).
Proof.
  apply (get_application_id_on_failure_status (backend []) (Local local_ui)
           start not_found); [reflexivity | discriminate].
Defined.

(** What [get_application_id] does is decided by the answer to one request:
    the source it returns is the source with some id cached, that id is the
    value returned, and the same request on that source gives them again. *)
Lemma get_application_id_runs p env st env' id st' :
  get_application_id p env st = (inr (env', id), st') ->
  env' = cache env id
  /\ forall st2,
      get_application_id p (cache env id) st2
      = (inr (cache env id, id),
         {| stdout := stdout st2;
            requested := requested st2 ++ [listing_url p env] |}).
Proof.
  destruct env as [self | self | self]; cbn [get_application_id cache listing_url];
    unfold DatabricksSparkEnvironment.get_application_id,
      DatabricksSparkEnvironment._databricks_api_get,
      NonDatabricksSparkEnvironment.get_application_id,
      LocalSparkEnvironment.get_application_id, bind, get;
    cbv zeta;
    cbn [DatabricksSparkEnvironment.databricks_instance
           DatabricksSparkEnvironment.databricks_token
           DatabricksSparkEnvironment.databricks_application_id
           DatabricksSparkEnvironment.application_id
           NonDatabricksSparkEnvironment.spark_master_url
           NonDatabricksSparkEnvironment.NonDatabricksSparkEnvironment_application_id
           NonDatabricksSparkEnvironment.application_id
           LocalSparkEnvironment.local_spark_ui_url
           LocalSparkEnvironment.local_application_id
           LocalSparkEnvironment.application_id].
  - destruct (requests_get p _ _) as [e | r]; [discriminate|].
    cbv beta iota. destruct (status_code r =? 200); [|discriminate].
    unfold response_json. destruct (body r) as [jobs|]; [|discriminate].
    cbn [lift ret raise]. destruct (truthy jobs).
    + destruct (item jobs "jobs") as [e | listing]; [discriminate|].
      cbn [lift ret raise]. destruct (item0 listing) as [e | first]; [discriminate|].
      cbn [lift ret raise]. destruct (item first "job_id") as [e | found]; [discriminate|].
      cbn [lift ret raise fst snd]. intros H. injection H as <- <- _.
      split; reflexivity.
    + cbn [ret fst snd]. intros H. injection H as <- <- _. split; reflexivity.
  - destruct (requests_get p _ _) as [e | r]; [discriminate|].
    cbv beta iota. destruct (status_code r =? 200).
    + unfold response_json. destruct (body r) as [apps|]; [|discriminate].
      cbn [lift ret raise]. destruct (truthy apps).
      * destruct (item0 apps) as [e | first]; [discriminate|].
        cbn [lift ret raise]. destruct (item first "id") as [e | found]; [discriminate|].
        cbn [lift ret raise fst snd]. intros H. injection H as <- <- _.
        split; reflexivity.
      * cbn [ret fst snd]. intros H. injection H as <- <- _. split; reflexivity.
    + cbn [ret fst snd]. intros H. injection H as <- <- _.
      destruct self. split; reflexivity.
  - destruct (requests_get p _ _) as [e | r]; [discriminate|].
    cbv beta iota. destruct (status_code r =? 200).
    + unfold response_json. destruct (body r) as [apps|]; [|discriminate].
      cbn [lift ret raise]. destruct (truthy apps).
      * destruct (item0 apps) as [e | first]; [discriminate|].
        cbn [lift ret raise]. destruct (item first "id") as [e | found]; [discriminate|].
        cbn [lift ret raise fst snd]. intros H. injection H as <- <- _.
        split; reflexivity.
      * cbn [ret fst snd]. intros H. injection H as <- <- _. split; reflexivity.
    + cbn [ret fst snd]. intros H. injection H as <- <- _.
      destruct self. split; reflexivity.
Qed.

(** X19: Resolving the application id a second time, on the source that the
    first call returned, returns the same id and the same source: the only
    field the call writes is the cached id, and no request depends on it. *)
Theorem get_application_id_twice p env st env' id st' :
  get_application_id p env st = (inr (env', id), st') ->
  get_application_id p env' st'
  = (inr (env', id),
     {| stdout := stdout st'; requested := requested st' ++ [listing_url p env] |})
  /\ cached_application_id env' = id.
Proof.
  intros H. destruct (get_application_id_runs _ _ _ _ _ _ H) as [-> Hagain].
  split; [apply Hagain | destruct env; reflexivity].
Qed.

Lemma get_application_id_twice_witness :
  get_application_id backend_one_application
    (cache (Local local_ui) (PStr "app-7")) after_listing
  = (inr (cache (Local local_ui) (PStr "app-7"), PStr "app-7"),
     {| stdout := [];
        requested := ["http://localhost:4040/api/v1/applications";
                      "http://localhost:4040/api/v1/applications"] |})
  /\ cached_application_id (cache (Local local_ui) (PStr "app-7")) = PStr "app-7".
Proof.
  apply (get_application_id_twice backend_one_application (Local local_ui)
           start (cache (Local local_ui) (PStr "app-7")) (PStr "app-7")
           after_listing).
  reflexivity.
Defined.

(** *** [get_executor_details] *)

(** X20: The local source never looks at the status of the executors request:
    whatever the status, a body that parses is returned under the key
    [executors]. *)
Theorem local_executor_details_ignore_status p self st r executors :
  requests_get p
    (py_format p (LocalSparkEnvironment.local_spark_ui_url self)
     ++ "/applications/"
     ++ py_format p (LocalSparkEnvironment.local_application_id self)
     ++ "/executors") [] = inr r ->
  body r = Some executors ->
  get_executor_details p (Local self) st
  = (inr (PDict [("executors", executors)]),
     {| stdout := stdout st;
        requested :=
          requested st
          ++ [py_format p (LocalSparkEnvironment.local_spark_ui_url self)
              ++ "/applications/"
              ++ py_format p (LocalSparkEnvironment.local_application_id self)
              ++ "/executors"] |}).
Proof.
  intros Hget Hbody.
  cbn [get_executor_details]. cbv zeta. unfold bind, get.
  rewrite Hget. cbv beta iota. unfold response_json. rewrite Hbody.
  reflexivity.
Qed.

Lemma local_executor_details_ignore_status_witness :
  get_executor_details backend_executors_failing (Local local_ui) start
  = (inr (PDict [("executors", PDict [("error", PStr "unavailable")])]),
     {| stdout := []; requested := [app_url ++ "/executors"] |}).
Proof.
  apply (local_executor_details_ignore_status backend_executors_failing
           local_ui start
           {| status_code := 500;
              body := Some (PDict [("error", PStr "unavailable")]) |});
    reflexivity.
Defined.

(** *** The factory *)





(** *** [main] *)

Lemma main_lists_jobs_first p st r :
  requests_get p (app_url ++ "/jobs") [] = inr r ->
  get_all_job_details_of_application p
    (get_spark_environment false true main_kwargs) st
  = ((if status_code r =? 200 then response_json r else inr PNone),
     {| stdout := stdout st; requested := requested st ++ [app_url ++ "/jobs"] |}).
Proof.
  intros Hget.
  change (get_all_job_details_of_application p
            (get_spark_environment false true main_kwargs) st)
    with (bind (get p (app_url ++ "/jobs") [])
               (fun response =>
                  if status_code response =? 200
                  then lift (response_json response)
                  else ret PNone) st).
  unfold bind, get. rewrite Hget.
  destruct (status_code r =? 200); [|reflexivity].
  destruct (response_json r); reflexivity.
Qed.

(** X23: [main] stops with [IndexError] when the application lists no job, at
    [all_job_ids[0]], before it looks up the job it was written for, although
    the listing is not used afterwards. *)
Theorem main_needs_a_listed_job p st r :
  requests_get p (app_url ++ "/jobs") [] = inr r ->
  status_code r = 200 ->
  body r = Some (PList []) ->
  main p st
  = (inl IndexError,
     {| stdout := stdout st; requested := requested st ++ [app_url ++ "/jobs"] |}).
Proof.
  intros Hget Hstatus Hbody. unfold main. cbv zeta.
  unfold bind at 1. fold main_kwargs.
  rewrite (main_lists_jobs_first p st r Hget), Hstatus.
  unfold response_json. rewrite Hbody. reflexivity.
Qed.

Lemma main_needs_a_listed_job_witness :
  main (backend [(app_url ++ "/jobs", ok (PList []))]) start
  = (inl IndexError, {| stdout := []; requested := [app_url ++ "/jobs"] |}).
Proof.
  apply (main_needs_a_listed_job
           (backend [(app_url ++ "/jobs", ok (PList []))]) start (ok (PList [])));
    reflexivity.
Defined.

(** X24: [main] stops with [TypeError] when the job listing is answered with a
    status other than 200: the [None] that
    [get_all_job_details_of_application] returns is iterated over. *)
Theorem main_needs_the_job_listing p st r :
  requests_get p (app_url ++ "/jobs") [] = inr r ->
  status_code r <> 200 ->
  main p st
  = (inl TypeError,
     {| stdout := stdout st; requested := requested st ++ [app_url ++ "/jobs"] |}).
Proof.
  intros Hget Hstatus. apply status_not_200 in Hstatus. unfold main. cbv zeta.
  unfold bind at 1. fold main_kwargs.
  rewrite (main_lists_jobs_first p st r Hget), Hstatus. reflexivity.
Qed.

Lemma main_needs_the_job_listing_witness :
  main (backend []) start
  = (inl TypeError, {| stdout := []; requested := [app_url ++ "/jobs"] |}).
Proof.
  apply (main_needs_the_job_listing (backend []) start not_found);
    [reflexivity | discriminate].
Defined.

(** *** Instances of the general statements on the sources *)

Lemma unknown_job_aborts_collection_witness :
  raised (collect backend_job_3_only (Local local_ui) [7; 3] start) <> None.
Proof.
  apply (unknown_job_aborts_collection backend_job_3_only (Local local_ui)
           [7; 3] 7 start).
  - left. reflexivity.
  - exists not_found. split; [reflexivity | discriminate].
Defined.


Lemma get_application_id_first_entry_witness :
  get_application_id backend_one_application (Local local_ui) start
  = (inr (cache (Local local_ui) (PStr "app-7"), PStr "app-7"), after_listing)
  /\ cached_application_id (cache (Local local_ui) (PStr "app-7")) = PStr "app-7".
Proof.
  apply (get_application_id_first_entry backend_one_application
           (Local local_ui) start
           (ok (PList [PDict [("id", PStr "app-7"); ("name", PStr "etl")]]))
           [("id", PStr "app-7"); ("name", PStr "etl")] [] (PStr "app-7"));
    reflexivity.
Defined.

(** *** The job lookup of the workspace source *)

(** X16: The workspace source builds the url of its job requests without the
    instance, so on a transport that refuses a url without a scheme every
    job lookup raises before any exchange, and with it
    [get_stage_details]: no stage of any job is ever reached. *)
Theorem workspace_job_lookup_is_refused p self job_id st :
  refuses_urls_without_scheme p ->
  get_specific_job_details p (Databricks self) job_id st
  = (inl missing_schema,
     {| stdout := stdout st;
        requested := requested st ++ [job_url p (Databricks self) job_id] |})
  /\ get_stage_details p (Databricks self) job_id st
     = (inl missing_schema,
        {| stdout := stdout st;
           requested := requested st ++ [job_url p (Databricks self) job_id] |})
  /\ raised (get_all_job_details_of_application p (Databricks self) st)
     = Some missing_schema.
Proof.
  intros Hrefuse.
  assert (Hjob : requests_get p (job_url p (Databricks self) job_id) []
                 = inl missing_schema) by apply Hrefuse.
  assert (Hlookup :
            get_specific_job_details p (Databricks self) job_id st
            = (inl missing_schema,
               {| stdout := stdout st;
                  requested := requested st
                               ++ [job_url p (Databricks self) job_id] |})).
  { cbn [get_specific_job_details job_url] in *.
    unfold DatabricksSparkEnvironment.get_specific_job_details, bind, get.
    cbv zeta. now rewrite Hjob. }
  split; [exact Hlookup | split].
  - cbn [get_stage_details get_specific_job_details] in *.
    unfold DatabricksSparkEnvironment.get_stage_details.
    now rewrite (bind_inl _ _ _ _ _ Hlookup).
  - cbn [get_all_job_details_of_application].
    unfold DatabricksSparkEnvironment.get_all_job_details_of_application,
      bind, get, raised.
    cbv zeta.
    change ("/api/v1/applications/"
            ++ py_format p (DatabricksSparkEnvironment.databricks_application_id self)
            ++ "/jobs")
      with (String "/"
              ("api/v1/applications/"
               ++ py_format p (DatabricksSparkEnvironment.databricks_application_id self)
               ++ "/jobs")).
    now rewrite Hrefuse.
Qed.

Lemma workspace_job_lookup_is_refused_witness :
  refuses_urls_without_scheme (strict_backend [])
  /\ get_stage_details (strict_backend []) (Databricks workspace) 8 start
     = (inl missing_schema,
        {| stdout := [];
           requested := ["/api/v1/applications/local-1728540004669/jobs/8"] |}).
Proof.
  assert (H : refuses_urls_without_scheme (strict_backend []))
    by (intros path headers; reflexivity).
  split; [exact H|].
  apply (workspace_job_lookup_is_refused (strict_backend []) workspace 8 start H).
Defined.
